(** * Gitleaks action: scan orchestration and findings reporting

    A shallow embedding of [src/scanner.ts] and [src/main.ts].

    Pure helpers of the sources are Rocq functions under the same names.
    Code that talks to the outside (logging, the tool cache, the hosting
    API, the engine subprocess, the job summary, [process.exit]) runs in a
    small monad [M]: a computation yields the ordered list of the effects it
    performed and how it ended (a value, a process exit, or a thrown
    error).  Whatever the outside answers is read from a [World] record, so
    every function stays executable on a concrete world. *)

From Stdlib Require Import Ascii String ZArith DecimalString DecimalZ DecimalPos.
From stdpp Require Import base strings gmap list.

(** ** JavaScript primitives used by the sources

    Strings are [string]s of bytes (the UTF-8 text of the sources);
    numbers that the sources use as integers (exit codes, line numbers,
    pull request numbers) are in [Z]. *)

Module Js.

(** [`${n}`] for an integral number [n]: plain decimal digits, with a
    leading minus sign below zero.  (JavaScript switches to exponent
    notation from 1e21 on; line numbers and exit codes stay far below.) *)
Definition number_to_string (n : Z) : string :=
  NilZero.string_of_int (Z.to_int n).

(** Truthiness of a value of type [string | undefined]: [undefined] and
    the empty string are falsy. *)
Definition truthy (v : option string) : bool :=
  match v with
  | Some s => negb (String.eqb s "")
  | None => false
  end.

(** [v || d] where [d] is a string. *)
Definition or_else (v : option string) (d : string) : string :=
  match v with
  | Some s => if String.eqb s "" then d else s
  | None => d
  end.

(** [`${v}`] for [v : string | undefined]. *)
Definition show (v : option string) : string :=
  match v with
  | Some s => s
  | None => "undefined"
  end.

(** [s.split(c)] for a one-character separator. *)
Fixpoint split_on (sep : ascii) (s : string) : list string :=
  match s with
  | EmptyString => [""]
  | String c s' =>
      if Ascii.eqb c sep then "" :: split_on sep s'
      else match split_on sep s' with
           | h :: t => String c h :: t
           | [] => [String c ""]
           end
  end.

Fixpoint drop_chars (n : nat) (s : string) : string :=
  match n, s with
  | O, _ => s
  | S _, EmptyString => ""
  | S n', String _ s' => drop_chars n' s'
  end.

(** [s.replace(pat, rep)] with a string pattern: first occurrence only. *)
Fixpoint replace_first (pat rep s : string) : string :=
  if String.prefix pat s then rep +:+ drop_chars (String.length pat) s
  else match s with
       | EmptyString => ""
       | String c s' => String c (replace_first pat rep s')
       end.

(** [s.replace(/^v/, "")]. *)
Definition strip_leading_v (s : string) : string :=
  match s with
  | String "v" s' => s'
  | _ => s
  end.

(** [s.endsWith(suffix)]. *)
Definition ends_with (suffix s : string) : bool :=
  let n := String.length s in
  let k := String.length suffix in
  (k <=? n)%nat && String.eqb (String.substring (n - k) k s) suffix.

(** [s.substring(0, n)]. *)
Definition substring0 (n : nat) (s : string) : string :=
  String.substring 0 n s.

(** [parts.join(sep)]. *)
Definition join (sep : string) (parts : list string) : string :=
  String.concat sep parts.

(** [true] when the character [c] occurs in [s]. *)
Fixpoint contains_char (c : ascii) (s : string) : bool :=
  match s with
  | EmptyString => false
  | String c' s' => Ascii.eqb c' c || contains_char c s'
  end.

End Js.

(** ** Effects and outcomes *)

(** Arguments of [octokit.rest.pulls.createReviewComment]
    ([interface PRComment]).  The fields [owner], [repo], [body] and [path]
    carry the prefix [pc_], which keeps them apart from the fields of the
    same names in [GITLEAKS_CONFIG] and [EventInfo].  [repo] is the second
    segment of the repository's full name and is [undefined] when that
    name has no slash. *)
Record PRComment := {
  pc_owner : string;
  pc_repo : option string;
  pull_number : Z;
  pc_body : string;
  commit_id : string;
  pc_path : string;
  side : string;
  line : Z;
}.

(** A cell of the job summary table: a plain string or [{data, header}]. *)
Inductive TableCell :=
| Cell (data : string)
| HeaderCell (data : string).

Inductive SummaryItem :=
| Heading (text : string)
| Table (rows : list (list TableCell)).

(** What the action does to the outside, in the order it does it. *)
Inductive effect :=
| LogInfo (msg : string)
| LogWarning (msg : string)
| LogError (msg : string)
| LogDebug (msg : string)
| SetOutput (name value : string)
| AddPath (dir : string)
| SubscriptionPost (url : string) (body : list (string * string))
| GetLatestRelease (owner repo : string)
| CacheRestore (paths : list string) (key : string)
| CacheSave (paths : list string) (key : string)
| Download (url dest : string)
| ExtractZip (archive dest : string)
| ExtractTar (archive dest : string)
| Exec (tool : string) (args : list string)
| UploadArtifact (name : string) (files : list string) (root : string)
| ListPullCommits (owner : string) (repo : option string) (pull : Z)
| ListPullComments (owner : string) (repo : option string) (pull : Z)
| CreateReviewComment (c : PRComment)
| SummaryWrite (items : list SummaryItem).

(** How a computation ends: with a value, through [process.exit(status)],
    or with a thrown [Error] carrying a message. *)
Inductive outcome (A : Type) :=
| Ret (a : A)
| Exit (status : Z)
| Throw (msg : string).
Arguments Ret {A} a.
Arguments Exit {A} status.
Arguments Throw {A} msg.

Definition M (A : Type) : Type := list effect * outcome A.

Definition ret {A} (a : A) : M A := ([], Ret a).

Definition bind {A B} (m : M A) (f : A → M B) : M B :=
  match m with
  | (t, Ret a) => let '(t', o) := f a in (t ++ t', o)
  | (t, Exit s) => (t, Exit s)
  | (t, Throw e) => (t, Throw e)
  end.

Definition emit (e : effect) : M unit := ([e], Ret tt).
Definition exit {A} (status : Z) : M A := ([], Exit status).
Definition throw {A} (msg : string) : M A := ([], Throw msg).

(** [try { m } catch (error) { h error.message }]. *)
Definition try_catch {A} (m : M A) (h : string → M A) : M A :=
  match m with
  | (t, Throw e) => let '(t', o) := h e in (t ++ t', o)
  | _ => m
  end.

(** An awaited call to the outside: the effect is recorded and the answer,
    a value or a rejection, is taken from the world. *)
Definition call {A} (e : effect) (answer : string + A) : M A :=
  match answer with
  | inl msg => ([e], Throw msg)
  | inr a => ([e], Ret a)
  end.

Notation "'do' x ← m ; k" := (bind m (λ x, k))
  (at level 10, x name, m at level 100, k at level 200,
   format "'[v' 'do'  x  ←  m ; '/' k ']'").

Definition trace {A} (m : M A) : list effect := fst m.
Definition result {A} (m : M A) : outcome A := snd m.

(** [for (const x of xs) { await body(x) }]. *)
Fixpoint for_of {A} (xs : list A) (body : A → M unit) : M unit :=
  match xs with
  | [] => ret tt
  | x :: rest => do _ ← body x; for_of rest body
  end.

(** [if (c) { await m }] for a statement [m]. *)
Definition when (c : bool) (m : M unit) : M unit :=
  if c then m else ret tt.

(** ** Data read from the outside *)

(** One entry of [runs[0].results] ([interface SarifResult]; main.ts reads
    author, date and email besides what scanner.ts reads).  The fields
    under [partialFingerprints] and [locations[0].physicalLocation] are
    flattened, as the interface types them. *)
Record SarifResult := {
  ruleId : string;
  commitSha : string;
  author : string;
  date : string;
  email : string;
  uri : string;
  startLine : Z;
}.

Record SarifRun := { results : option (list SarifResult) }.
Record SarifLog := { runs : option (list SarifRun) }.

(** The file [results.sarif] as the action finds it after the scan:
    absent, present but [readFileSync]/[JSON.parse] throws, or parsed. *)
Inductive ReportFile :=
| ReportMissing
| ReportUnreadable (msg : string)
| ReportJson (log : SarifLog).

(** A review comment as listed by the hosting API
    ([interface ExistingComment]); [body] and [path] carry the prefix
    [ec_]. *)
Record ExistingComment := {
  ec_body : string;
  ec_path : string;
  original_line : option Z;
}.

(** [repository] of the payload; [repo_name] is its field [name] and
    [owner_login] its field [owner.login]. *)
Record Repository := {
  html_url : string;
  owner_login : string;
  full_name : string;
  repo_name : string;
}.

Record PushCommit := { id : string }.
Record PullCommit := { sha : string }.
Record PullRequestRefs := { base_sha : string; head_sha : string }.

(** The event payload ([interface EventData] of main.ts and
    [interface EventJSON] of scanner.ts are two views of it). *)
Record EventData := {
  repository : Repository;
  commits : option (list PushCommit);
  number : Z;
  pull_request : option PullRequestRefs;
}.

Inductive SubscriptionAnswer :=
| SubscriptionAccepted
| SubscriptionForbidden
| SubscriptionUnreachable.

(** Everything the outside answers during one run.  A field of type
    [string + A] is an awaited call: [inl msg] rejects with that message.
    The engine subprocess inherits the process environment, so its exit
    code is a function of the environment and of the command line. *)
Record World := {
  env : gmap string string;
  platform : string;
  arch : string;
  tmpdir : string;
  cwd : string;
  repo_private : option bool;
  subscription_api : SubscriptionAnswer;
  event_file : string → string + EventData;
  latest_release : string + string;
  cache_restore : string → string + option string;
  cache_save : string → string + unit;
  download_tool : string → string → string + string;
  extract_zip : string + unit;
  extract_tar : string + unit;
  gitleaks : gmap string string → list string → string + Z;
  upload_artifact : string + unit;
  pull_commits : string + list PullCommit;
  pull_comments : string + list ExistingComment;
  create_review_comment : PRComment → string + unit;
  report : ReportFile;
}.

(** [process.env.KEY]. *)
Definition getenv (w : World) (key : string) : option string := env w !! key.

(** [path.join(a, b)] for two plain segments. *)
Definition path_join (a b : string) : string := a +:+ "/" +:+ b.

Definition existsSync (w : World) : bool :=
  match report w with
  | ReportMissing => false
  | _ => true
  end.

(** [JSON.parse(readFileSync(path, "utf8"))] on the report. *)
Definition readReportJson (w : World) : M SarifLog :=
  match report w with
  | ReportMissing => throw "ENOENT: no such file or directory"
  | ReportUnreadable msg => throw msg
  | ReportJson log => ret log
  end.

(** The double-quote character. *)
Definition DQ : string := String (Ascii.ascii_of_nat 34) EmptyString.

(** The [TypeError] raised by reading a property of [undefined]. *)
Definition type_error (prop : string) : string :=
  "Cannot read properties of undefined (reading '" +:+ prop +:+ "')".

(** ** src/scanner.ts *)

Module Scanner.

Record ExitCodes := { SUCCESS : Z; ERROR : Z; LEAKS_DETECTED : Z }.

Record GitleaksConfig := {
  releaseBaseUrl : string;
  owner : string;
  repo : string;
  sarifOutputFile : string;
  artifactName : string;
}.

Record ScanFlags := {
  redact : bool;
  verbose : bool;
  exitCode : Z;
  reportFormat : string;
  logLevel : string;
}.

Record ScanOptions := { command : string; flags : ScanFlags }.

Record ScanInfo := {
  baseRef : option string;
  headRef : option string;
  gitleaksPath : option string;
}.

(** [interface RepoInfo]; its fields [owner] and [repo] carry the prefix
    [ri_]. *)
Record RepoInfo := { ri_owner : string; ri_repo : option string }.

Definition EXIT_CODES : ExitCodes :=
  {| SUCCESS := 0; ERROR := 1; LEAKS_DETECTED := 2 |}.

Definition GITLEAKS_CONFIG : GitleaksConfig := {|
  releaseBaseUrl := "https://github.com/zricethezav/gitleaks/releases/download";
  owner := "zricethezav";
  repo := "gitleaks";
  sarifOutputFile := "results.sarif";
  artifactName := "gitleaks-results.sarif";
|}.

Definition SCAN_OPTIONS : ScanOptions := {|
  command := "detect";
  flags := {| redact := true; verbose := true; exitCode := 2;
              reportFormat := "sarif"; logLevel := "debug" |};
|}.

(** *** Platform helpers *)

Definition normalizePlatform (platform : string) : string :=
  if String.eqb platform "win32" then "windows" else platform.

Definition buildReleaseUrl (version platform arch : string) : string :=
  let normalizedPlatform := normalizePlatform platform in
  let filename :=
    "gitleaks_" +:+ version +:+ "_" +:+ normalizedPlatform +:+ "_" +:+ arch
    +:+ ".tar.gz" in
  releaseBaseUrl GITLEAKS_CONFIG +:+ "/v" +:+ version +:+ "/" +:+ filename.

Definition buildCacheKey (version platform arch : string) : string :=
  "gitleaks-cache-" +:+ version +:+ "-" +:+ platform +:+ "-" +:+ arch.

Definition getInstallPath (w : World) (version : string) : string :=
  path_join (tmpdir w) ("gitleaks-" +:+ version).

(** *** Cache management *)

Definition tryRestoreFromCache (w : World) (installPath cacheKey : string)
  : M bool :=
  try_catch
    (do restoredKey ← call (CacheRestore [installPath] cacheKey)
                           (cache_restore w cacheKey);
     ret (match restoredKey with Some _ => true | None => false end))
    (λ errorMessage,
      do _ ← emit (LogWarning ("Cache restore failed: " +:+ errorMessage));
      ret false).

Definition trySaveToCache (w : World) (installPath cacheKey : string)
  : M unit :=
  try_catch
    (call (CacheSave [installPath] cacheKey) (cache_save w cacheKey))
    (λ errorMessage,
      emit (LogWarning ("Cache save failed: " +:+ errorMessage))).

(** *** Download and extraction *)

Definition downloadBinary (w : World) (url destination : string) : M string :=
  try_catch
    (call (Download url destination) (download_tool w url destination))
    (λ errorMessage,
      do _ ← emit (LogError ("Failed to download from " +:+ url +:+ ": "
                             +:+ errorMessage));
      throw errorMessage).

Definition extractArchive (w : World) (archivePath destination url : string)
  : M unit :=
  if Js.ends_with ".zip" url then
    call (ExtractZip archivePath destination) (extract_zip w)
  else if Js.ends_with ".tar.gz" url then
    call (ExtractTar archivePath destination) (extract_tar w)
  else throw ("Unsupported archive format: " +:+ url).

Definition downloadAndInstallBinary (w : World)
    (version installPath cacheKey : string) : M unit :=
  let releaseUrl := buildReleaseUrl version (platform w) (arch w) in
  let downloadPath := path_join (tmpdir w) "gitleaks.tmp" in
  do _ ← emit (LogInfo ("Downloading Gitleaks from " +:+ releaseUrl));
  do archive ← downloadBinary w releaseUrl downloadPath;
  do _ ← extractArchive w archive installPath releaseUrl;
  trySaveToCache w installPath cacheKey.

(** *** Main install function *)

Definition Install (w : World) (version : string) : M string :=
  let installPath := getInstallPath w version in
  let cacheKey := buildCacheKey version (platform w) (arch w) in
  do _ ← emit (LogInfo ("Installing Gitleaks " +:+ version +:+ " to "
                        +:+ installPath));
  do cacheHit ← tryRestoreFromCache w installPath cacheKey;
  do _ ← (if cacheHit then emit (LogInfo "Gitleaks restored from cache")
          else downloadAndInstallBinary w version installPath cacheKey);
  do _ ← emit (AddPath installPath);
  ret installPath.

(** *** Version management *)

Definition Latest (w : World) : M string :=
  do tag_name ← call (GetLatestRelease (owner GITLEAKS_CONFIG)
                                       (repo GITLEAKS_CONFIG))
                     (latest_release w);
  ret (Js.strip_leading_v tag_name).

(** *** Command building *)

Definition buildGitLogOptions (scanInfo : ScanInfo) (eventType : string)
  : option string :=
  if String.eqb eventType "push" || String.eqb eventType "pull_request" then
    if bool_decide (baseRef scanInfo = headRef scanInfo) then Some "-1"
    else Some ("--no-merges --first-parent " +:+ Js.show (baseRef scanInfo)
               +:+ "^.." +:+ Js.show (headRef scanInfo))
  else None.

Definition buildScanCommand (scanInfo : ScanInfo) (eventType : string)
  : list string :=
  let args := [
    command SCAN_OPTIONS;
    "--redact";
    "-v";
    "--exit-code=" +:+ Js.number_to_string (exitCode (flags SCAN_OPTIONS));
    "--report-format=" +:+ reportFormat (flags SCAN_OPTIONS);
    "--report-path=" +:+ sarifOutputFile GITLEAKS_CONFIG;
    "--log-level=" +:+ logLevel (flags SCAN_OPTIONS)
  ] in
  let logOpts := buildGitLogOptions scanInfo eventType in
  if Js.truthy logOpts then args ++ ["--log-opts=" +:+ Js.show logOpts]
  else args.

(** *** Artifact upload *)

Definition uploadScanArtifact (w : World) : M unit :=
  call (UploadArtifact (artifactName GITLEAKS_CONFIG)
                       [sarifOutputFile GITLEAKS_CONFIG] (cwd w))
       (upload_artifact w).

(** *** Main scan function *)

Definition Scan (w : World) (shouldUploadArtifact : bool)
    (scanInfo : ScanInfo) (eventType : string) : M Z :=
  let args := buildScanCommand scanInfo eventType in
  do _ ← emit (LogInfo ("Executing: gitleaks " +:+ Js.join " " args));
  do exitCode ← call (Exec "gitleaks" args) (gitleaks w (env w) args);
  do _ ← emit (SetOutput "exit-code" (Js.number_to_string exitCode));
  do _ ← when shouldUploadArtifact (uploadScanArtifact w);
  ret exitCode.

(** *** Pull request helpers *)

Definition fetchPullRequestCommits (w : World) (owner : string)
    (repo : option string) (pullNumber : Z) : M (list PullCommit) :=
  call (ListPullCommits owner repo pullNumber) (pull_commits w).

Definition extractRepoInfo (fullRepoName : string) : RepoInfo :=
  let parts := Js.split_on "/" fullRepoName in
  {| ri_owner := default "" (parts !! 0%nat); ri_repo := parts !! 1%nat |}.

(** [commits[i].sha]: a [TypeError] when there is no such entry. *)
Definition sha_at (commits : list PullCommit) (i : option nat) : M string :=
  match i ≫= (commits !!.) with
  | Some c => ret (sha c)
  | None => throw (type_error "sha")
  end.

(** [commits.length - 1] as an index; none when the list is empty. *)
Definition last_index {A} (l : list A) : option nat :=
  match length l with
  | O => None
  | S n => Some n
  end.

Definition buildScanInfoFromCommits (commits : list PullCommit)
    (baseRefOverride : option string) : M ScanInfo :=
  do baseRef ← (if Js.truthy baseRefOverride
                then ret (Js.show baseRefOverride)
                else sha_at commits (Some 0%nat));
  do headRef ← sha_at commits (last_index commits);
  do _ ← when (Js.truthy baseRefOverride)
           (emit (LogInfo ("Using base ref override: "
                           +:+ Js.show baseRefOverride)));
  ret {| baseRef := Some baseRef; headRef := Some headRef;
         gitleaksPath := None |}.

(** *** Comment management *)

Definition fetchExistingComments (w : World) (owner : string)
    (repo : option string) (pullNumber : Z) : M (list ExistingComment) :=
  call (ListPullComments owner repo pullNumber) (pull_comments w).

Definition isCommentDuplicate (existingComment : ExistingComment)
    (proposedComment : PRComment) : bool :=
  String.eqb (ec_body existingComment) (pc_body proposedComment)
  && String.eqb (ec_path existingComment) (pc_path proposedComment)
  && bool_decide (original_line existingComment = Some (line proposedComment)).

Definition commentAlreadyExists (existingComments : list ExistingComment)
    (proposedComment : PRComment) : bool :=
  existsb (λ comment, isCommentDuplicate comment proposedComment)
          existingComments.

(** *** Secret detection helpers *)

Definition buildSecretFingerprint (result : SarifResult) : string :=
  let commitSha := commitSha result in
  let filePath := uri result in
  let line := startLine result in
  let ruleId := ruleId result in
  commitSha +:+ ":" +:+ filePath +:+ ":" +:+ ruleId +:+ ":"
  +:+ Js.number_to_string line.

Definition LF : string := String (Ascii.ascii_of_nat 10) EmptyString.

Definition buildCommentBody (result : SarifResult) (fingerprint : string)
    (userList : option string) : string :=
  let ruleId := ruleId result in
  let commitSha := commitSha result in
  let body :=
    "🛑 **Gitleaks** has detected a secret with rule-id `" +:+ ruleId
    +:+ "` in commit " +:+ commitSha +:+ "." +:+ LF
    +:+ "If this secret is a _true_ positive, please rotate the secret ASAP."
    +:+ LF +:+ LF
    +:+ "If this secret is a _false_ positive, you can add the fingerprint below to your `.gitleaksignore` file and commit the change to this branch."
    +:+ LF +:+ LF
    +:+ "```" +:+ LF
    +:+ "echo " +:+ fingerprint +:+ " >> .gitleaksignore" +:+ LF
    +:+ "```" +:+ LF in
  if Js.truthy userList then body +:+ LF +:+ LF +:+ "cc " +:+ Js.show userList
  else body.

Definition buildReviewComment (w : World) (result : SarifResult)
    (owner : string) (repo : option string) (pullNumber : Z) : PRComment :=
  let commitSha := commitSha result in
  let fingerprint := buildSecretFingerprint result in
  let userList := getenv w "GITLEAKS_NOTIFY_USER_LIST" in
  {| pc_owner := owner;
     pc_repo := repo;
     pull_number := pullNumber;
     pc_body := buildCommentBody result fingerprint userList;
     commit_id := commitSha;
     pc_path := uri result;
     side := "RIGHT";
     line := startLine result |}.

Definition postReviewComment (w : World) (comment : PRComment) : M unit :=
  try_catch
    (call (CreateReviewComment comment) (create_review_comment w comment))
    (λ errorMessage,
      emit (LogWarning
        ("Failed to post comment on PR #"
         +:+ Js.number_to_string (pull_number comment) +:+ ": "
         +:+ errorMessage +:+ LF
         +:+ "Likely caused by a large diff. All secrets will be reported in the summary and artifacts."))).

(** *** SARIF parsing *)

(** [sarif.runs[0].results]: each step throws on [undefined]; a run
    without [results] yields [undefined], rendered as [None]. *)
Definition parseSarifFile (w : World) : M (option (list SarifResult)) :=
  if negb (existsSync w) then ret None
  else
    try_catch
      (do sarif ← readReportJson w;
       match runs sarif with
       | None => throw (type_error "0")
       | Some [] => throw (type_error "results")
       | Some (run0 :: _) => ret (results run0)
       end)
      (λ errorMessage,
        do _ ← emit (LogWarning ("Failed to parse SARIF file: "
                                 +:+ errorMessage));
        ret None).

(** *** Main PR scan function *)

Definition validateGitHubToken (w : World) : M unit :=
  if negb (Js.truthy (getenv w "GITHUB_TOKEN")) then
    do _ ← emit (LogError
      ("🛑 GITHUB_TOKEN is required for pull request scanning. "
       +:+ "Use the automatically created token as shown in the README."));
    exit 1
  else ret tt.

Definition shouldPostComments (w : World) : bool :=
  negb (bool_decide (getenv w "GITLEAKS_ENABLE_COMMENTS" = Some "false")).

Definition postPullRequestComments (w : World) (owner : string)
    (repo : option string) (pullNumber exitCode : Z) : M unit :=
  if negb (exitCode =? LEAKS_DETECTED EXIT_CODES)%Z then ret tt
  else
    do secrets ← parseSarifFile w;
    match secrets with
    | None | Some [] => ret tt
    | Some secrets =>
        do existingComments ← fetchExistingComments w owner repo pullNumber;
        for_of secrets (λ secret,
          let comment := buildReviewComment w secret owner repo pullNumber in
          when (negb (commentAlreadyExists existingComments comment))
               (postReviewComment w comment))
    end.

(** The scan range of a pull request: the [if]/[else if]/[else] block of
    [ScanPullRequest] that assigns [scanInfo]. *)
Definition pullRequestScanInfo (w : World) (owner : string)
    (repo : option string) (pullNumber : Z) (eventJSON : EventData)
  : M ScanInfo :=
  if Js.truthy (getenv w "BASE_REF") then
    do commits ← fetchPullRequestCommits w owner repo pullNumber;
    buildScanInfoFromCommits commits (getenv w "BASE_REF")
  else
    match pull_request eventJSON with
    | Some pr =>
        let baseSha := base_sha pr in
        let headSha := head_sha pr in
        do _ ← emit (LogInfo ("Scanning PR from " +:+ Js.substring0 7 baseSha
                              +:+ " to " +:+ Js.substring0 7 headSha));
        ret {| baseRef := Some baseSha; headRef := Some headSha;
               gitleaksPath := None |}
    | None =>
        do commits ← fetchPullRequestCommits w owner repo pullNumber;
        buildScanInfoFromCommits commits None
    end.

Definition ScanPullRequest (w : World) (shouldUploadArtifact : bool)
    (eventJSON : EventData) (eventType : string) : M Z :=
  do _ ← validateGitHubToken w;
  let info := extractRepoInfo (full_name (repository eventJSON)) in
  let owner := ri_owner info in
  let repo := ri_repo info in
  let pullNumber := number eventJSON in
  do scanInfo ← pullRequestScanInfo w owner repo pullNumber eventJSON;
  do exitCode ← Scan w shouldUploadArtifact scanInfo eventType;
  do _ ← when (shouldPostComments w)
           (postPullRequestComments w owner repo pullNumber exitCode);
  ret exitCode.

Definition EXIT_CODE_LEAKS_DETECTED : Z := LEAKS_DETECTED EXIT_CODES.

End Scanner.

(** ** src/main.ts *)

Module Action.

Record ExitCodes := { SUCCESS : Z; ERROR : Z; LEAKS_FOUND : Z }.

Record Config := {
  enableSummary : bool;
  enableUploadArtifact : bool;
  version : string;
  baseRef : option string;
}.

(** [interface ScanConfig extends Config]; the API client carries no
    data of its own here, its answers are in the world. *)
Record ScanConfig := {
  config : Config;
  eventData : EventData;
  gitleaksPath : string;
}.

Record EventInfo := { type : string; path : string }.

Definition ESC : string := String (Ascii.ascii_of_nat 27) EmptyString.
Definition LF : string := String (Ascii.ascii_of_nat 10) EmptyString.

(** *** Subscription check *)

Definition validateSubscription (w : World) : M unit :=
  let repoPrivate := repo_private w in
  let action := getenv w "GITHUB_ACTION_REPOSITORY" in
  let docsUrl :=
    "https://docs.stepsecurity.io/actions/stepsecurity-maintained-actions" in
  do _ ← emit (LogInfo (LF +:+ ESC +:+ "[1;33mStepSecurity Maintained Action"
                        +:+ ESC +:+ "[0m"));
  do _ ← emit (LogInfo (ESC +:+ "[37mSecure, reviewed, drop-in replacement for "
                        +:+ Js.show action +:+ ESC +:+ "[0m"));
  do _ ← when (bool_decide (repoPrivate = Some false))
           (emit (LogInfo (ESC +:+ "[32m✓ Free for public repositories"
                           +:+ ESC +:+ "[0m")));
  do _ ← emit (LogInfo (ESC +:+ "[36m" +:+ docsUrl +:+ ESC +:+ "[0m" +:+ LF));
  if bool_decide (repoPrivate = Some false) then ret tt
  else
    let serverUrl :=
      Js.or_else (getenv w "GITHUB_SERVER_URL") "https://github.com" in
    let body :=
      ("action", Js.or_else action "")
      :: (if String.eqb serverUrl "https://github.com" then []
          else [("ghes_server", serverUrl)]) in
    do _ ← emit (SubscriptionPost
                   ("https://agent.api.stepsecurity.io/v1/github/"
                    +:+ Js.show (getenv w "GITHUB_REPOSITORY")
                    +:+ "/actions/maintained-actions-subscription") body);
    match subscription_api w with
    | SubscriptionAccepted => ret tt
    | SubscriptionForbidden =>
        do _ ← emit (LogError (ESC +:+ "[1;31mThis action requires a StepSecurity subscription for private repositories." +:+ ESC +:+ "[0m"));
        do _ ← emit (LogError (ESC +:+ "[31mLearn how to enable a subscription: "
                               +:+ docsUrl +:+ ESC +:+ "[0m"));
        exit 1
    | SubscriptionUnreachable =>
        emit (LogInfo "Timeout or API not reachable. Continuing to next step.")
    end.

(** *** Report module *)

Definition EXIT_CODES : ExitCodes :=
  {| SUCCESS := 0; ERROR := 1; LEAKS_FOUND := 2 |}.

Definition SARIF_FILE_PATH : string := "results.sarif".

Definition TABLE_HEADERS : list TableCell := [
  HeaderCell "Rule ID"; HeaderCell "Commit"; HeaderCell "Secret URL";
  HeaderCell "Start Line"; HeaderCell "Author"; HeaderCell "Date";
  HeaderCell "Email"; HeaderCell "File"
].

Definition buildCommitUrl (repoUrl commitSha : string) : string :=
  repoUrl +:+ "/commit/" +:+ commitSha.

Definition buildSecretUrl (repoUrl commitSha filePath : string)
    (lineNumber : Z) : string :=
  repoUrl +:+ "/blob/" +:+ commitSha +:+ "/" +:+ filePath +:+ "#L"
  +:+ Js.number_to_string lineNumber.

Definition buildFileUrl (repoUrl commitSha filePath : string) : string :=
  repoUrl +:+ "/blob/" +:+ commitSha +:+ "/" +:+ filePath.

Definition formatSecretRow (secret : SarifResult) (repoUrl : string)
  : list TableCell :=
  let commitSha := commitSha secret in
  let filePath := uri secret in
  let lineNumber := startLine secret in
  let commitUrl := buildCommitUrl repoUrl commitSha in
  let secretUrl := buildSecretUrl repoUrl commitSha filePath lineNumber in
  let fileUrl := buildFileUrl repoUrl commitSha filePath in
  [ Cell (ruleId secret);
    Cell ("<a href=" +:+ DQ +:+ commitUrl +:+ DQ +:+ ">"
          +:+ Js.substring0 7 commitSha +:+ "</a>");
    Cell ("<a href=" +:+ DQ +:+ secretUrl +:+ DQ +:+ ">View Secret</a>");
    Cell (Js.number_to_string lineNumber);
    Cell (author secret);
    Cell (date secret);
    Cell (email secret);
    Cell ("<a href=" +:+ DQ +:+ fileUrl +:+ DQ +:+ ">" +:+ filePath
          +:+ "</a>") ].

Definition parseSarifResults (w : World) (sarifPath : string)
  : M (option (list SarifResult)) :=
  try_catch
    (if negb (existsSync w) then
       do _ ← emit (LogWarning ("SARIF file not found at " +:+ sarifPath));
       ret None
     else
       do sarif ← readReportJson w;
       match runs sarif with
       | Some (run0 :: _) =>
           match results run0 with
           | Some found => ret (Some found)
           | None =>
               do _ ← emit (LogWarning "Invalid SARIF structure"); ret None
           end
       | _ => do _ ← emit (LogWarning "Invalid SARIF structure"); ret None
       end)
    (λ errorMessage,
      do _ ← emit (LogWarning ("Error parsing SARIF file: " +:+ errorMessage));
      ret None).

Definition buildSecretsTable (secrets : list SarifResult) (repoUrl : string)
  : list (list TableCell) :=
  let rows := map (λ secret, formatSecretRow secret repoUrl) secrets in
  TABLE_HEADERS :: rows.

Definition NO_DETAILS_HEADING : string :=
  "‚ö†Ô∏è Gitleaks reported leaks but no details found".

(** The awaited [core.summary...write()] of the three writers is recorded
    as the effect [SummaryWrite]; a write that rejects has no counterpart
    here, and the rows of the table are built from entries typed as
    [SarifResult]. *)
Definition writeLeaksDetectedSummary (w : World) (repoUrl : string)
  : M unit :=
  do secrets ← parseSarifResults w SARIF_FILE_PATH;
  match secrets with
  | None | Some [] => emit (SummaryWrite [Heading NO_DETAILS_HEADING])
  | Some secrets =>
      let tableData := buildSecretsTable secrets repoUrl in
      emit (SummaryWrite [Heading "üõë Gitleaks detected secrets üõë";
                          Table tableData])
  end.

Definition writeSuccessSummary : M unit :=
  emit (SummaryWrite [Heading "No leaks detected ‚úÖ"]).

Definition writeErrorSummary (exitCode : Z) : M unit :=
  let message :=
    if (exitCode =? ERROR EXIT_CODES)%Z
    then "‚ùå Gitleaks exited with error. Exit code ["
         +:+ Js.number_to_string exitCode +:+ "]"
    else "‚ùå Gitleaks exited with unexpected exit code ["
         +:+ Js.number_to_string exitCode +:+ "]" in
  emit (SummaryWrite [Heading message]).

Definition writeSummary (w : World) (exitCode : Z) (eventJSON : EventData)
  : M unit :=
  let repoUrl := html_url (repository eventJSON) in
  if (exitCode =? SUCCESS EXIT_CODES)%Z then writeSuccessSummary
  else if (exitCode =? LEAKS_FOUND EXIT_CODES)%Z
       then writeLeaksDetectedSummary w repoUrl
       else writeErrorSummary exitCode.

(** *** Main module *)

Definition DEFAULT_GITLEAKS_VERSION : string := "8.24.3".

Record EventTypes := {
  PUSH : string;
  PULL_REQUEST : string;
  WORKFLOW_DISPATCH : string;
  SCHEDULE : string;
}.

Definition EVENT_TYPES : EventTypes := {|
  PUSH := "push";
  PULL_REQUEST := "pull_request";
  WORKFLOW_DISPATCH := "workflow_dispatch";
  SCHEDULE := "schedule";
|}.

Definition SUPPORTED_EVENTS : list string := [
  PUSH EVENT_TYPES; PULL_REQUEST EVENT_TYPES;
  WORKFLOW_DISPATCH EVENT_TYPES; SCHEDULE EVENT_TYPES
].

(** [EXIT_STATUS]; its fields [SUCCESS] and [LEAKS_DETECTED] carry the
    prefix [ES_], the plain names being those of [EXIT_CODES]. *)
Record ExitStatus := { ES_SUCCESS : Z; ES_LEAKS_DETECTED : Z }.

Definition EXIT_STATUS : ExitStatus :=
  {| ES_SUCCESS := 0; ES_LEAKS_DETECTED := 1 |}.

(** *** Configuration helpers *)

Definition parseBooleanEnv (w : World) (key : string) (defaultValue : bool)
  : bool :=
  let value := getenv w key in
  if bool_decide (value = Some "false") || bool_decide (value = Some "0")
  then false
  else defaultValue.

Definition parseEnvironmentConfig (w : World) : Config := {|
  enableSummary := parseBooleanEnv w "GITLEAKS_ENABLE_SUMMARY" true;
  enableUploadArtifact :=
    parseBooleanEnv w "GITLEAKS_ENABLE_UPLOAD_ARTIFACT" true;
  version := Js.or_else (getenv w "GITLEAKS_VERSION") DEFAULT_GITLEAKS_VERSION;
  baseRef := getenv w "BASE_REF";
|}.

Definition getEventInfo (w : World) : EventInfo := {|
  type := Js.or_else (getenv w "GITHUB_EVENT_NAME") "";
  path := Js.or_else (getenv w "GITHUB_EVENT_PATH") "";
|}.

(** *** Event data loading *)

Definition loadEventData (w : World) (eventPath : string) : M EventData :=
  match event_file w eventPath with
  | inr data => ret data
  | inl errorMessage =>
      do _ ← emit (LogError ("Failed to load event data from " +:+ eventPath
                             +:+ ": " +:+ errorMessage));
      exit 1
  end.

Definition validateEventType (eventType : string) : M unit :=
  if negb (bool_decide (eventType ∈ SUPPORTED_EVENTS)) then
    do _ ← emit (LogError ("ERROR: The [" +:+ eventType
                           +:+ "] event is not yet supported"));
    exit 1
  else ret tt.

(** *** Schedule event handling *)

Definition normalizeScheduleEvent (w : World) (eventData : EventData)
    (eventType : string) : EventData :=
  if negb (String.eqb eventType (SCHEDULE EVENT_TYPES)) then eventData
  else
    let owner := Js.or_else (getenv w "GITHUB_REPOSITORY_OWNER") "" in
    let fullRepo := Js.or_else (getenv w "GITHUB_REPOSITORY") "" in
    let repoName := Js.replace_first (owner +:+ "/") "" fullRepo in
    {| repository := {| owner_login := owner;
                        full_name := fullRepo;
                        repo_name := repoName;
                        html_url := "https://github.com/" +:+ fullRepo |};
       commits := commits eventData;
       number := number eventData;
       pull_request := pull_request eventData |}.

(** *** Version resolution *)

Definition resolveGitleaksVersion (w : World) (version : string) : M string :=
  if String.eqb version "latest" then
    do _ ← emit (LogInfo "Resolving latest Gitleaks version...");
    Scanner.Latest w
  else ret version.

(** *** Scan info builders *)

(** [commits[i].id] on a list known to be non-empty at the call. *)
Definition id_at (commits : list PushCommit) (i : option nat) : M string :=
  match i ≫= (commits !!.) with
  | Some c => ret (id c)
  | None => throw (type_error "id")
  end.

Definition buildPushScanInfo (eventData : EventData)
    (baseRefOverride : option string) : M Scanner.ScanInfo :=
  match commits eventData with
  | None | Some [] =>
      do _ ← emit (LogInfo "No commits to scan");
      exit (ES_SUCCESS EXIT_STATUS)
  | Some commits =>
      do baseRef ← (if Js.truthy baseRefOverride
                    then ret (Js.show baseRefOverride)
                    else id_at commits (Some 0%nat));
      do headRef ← id_at commits (Scanner.last_index commits);
      do _ ← when (Js.truthy baseRefOverride)
               (emit (LogInfo ("Overriding baseRef for scan with "
                               +:+ Js.show baseRefOverride +:+ ".")));
      ret {| Scanner.baseRef := Some baseRef;
             Scanner.headRef := Some headRef;
             Scanner.gitleaksPath := None |}
  end.

(** *** Scan orchestration *)

(** The [scanners] table keyed by event name, and its lookup. *)
Definition executeScan (w : World) (scanType : string)
    (scanParams : Scanner.ScanInfo) (cfg : ScanConfig) : M Z :=
  if String.eqb scanType (PUSH EVENT_TYPES)
     || String.eqb scanType (WORKFLOW_DISPATCH EVENT_TYPES)
     || String.eqb scanType (SCHEDULE EVENT_TYPES)
  then Scanner.Scan w (enableUploadArtifact (config cfg)) scanParams scanType
  else if String.eqb scanType (PULL_REQUEST EVENT_TYPES)
  then Scanner.ScanPullRequest w (enableUploadArtifact (config cfg))
                               (eventData cfg) scanType
  else
    do _ ← emit (LogError ("No scanner configured for event type: "
                           +:+ scanType));
    exit 1.

Definition performScan (w : World) (eventType : string)
    (eventData : EventData) (cfg : ScanConfig) : M Z :=
  do _ ← emit (LogInfo ("Event type: " +:+ eventType));
  let scanParams := {| Scanner.baseRef := None; Scanner.headRef := None;
                       Scanner.gitleaksPath := Some (gitleaksPath cfg) |} in
  let cfg' := {| config := config cfg; eventData := eventData;
                 gitleaksPath := gitleaksPath cfg |} in
  if String.eqb eventType (PUSH EVENT_TYPES) then
    do scanInfo ← buildPushScanInfo eventData (baseRef (config cfg));
    executeScan w eventType scanInfo cfg'
  else if String.eqb eventType (PULL_REQUEST EVENT_TYPES) then
    executeScan w eventType scanParams cfg'
  else if String.eqb eventType (WORKFLOW_DISPATCH EVENT_TYPES)
          || String.eqb eventType (SCHEDULE EVENT_TYPES) then
    executeScan w eventType scanParams cfg'
  else
    do _ ← emit (LogError ("Unhandled event type: " +:+ eventType));
    exit 1.

(** *** Summary generation *)

Definition generateSummary (w : World) (exitCode : Z)
    (eventData : EventData) (shouldGenerate : bool) : M unit :=
  if negb shouldGenerate then emit (LogDebug "Summary generation disabled")
  else writeSummary w exitCode eventData.

(** *** Exit handling *)

Definition handleScanResult (exitCode : Z) : M unit :=
  if (exitCode =? ES_SUCCESS EXIT_STATUS)%Z then
    emit (LogInfo "‚úÖ No leaks detected")
  else if (exitCode =? Scanner.EXIT_CODE_LEAKS_DETECTED)%Z then
    do _ ← emit (LogWarning "üõë Leaks detected, see job summary for details");
    exit (ES_LEAKS_DETECTED EXIT_STATUS)
  else
    do _ ← emit (LogError ("ERROR: Unexpected exit code ["
                           +:+ Js.number_to_string exitCode +:+ "]"));
    exit exitCode.

(** *** Main execution flow *)

Definition run (w : World) : M unit :=
  do _ ← validateSubscription w;
  let config := parseEnvironmentConfig w in
  let eventInfo := getEventInfo w in
  do _ ← emit (LogDebug (if enableSummary config
                         then "GitHub Actions Summary enabled"
                         else "Disabling GitHub Actions Summary."));
  do _ ← emit (LogDebug (if enableUploadArtifact config
                         then "Artifact upload enabled"
                         else "Disabling uploading of results.sarif artifact."));
  do _ ← validateEventType (type eventInfo);
  do eventData ← loadEventData w (path eventInfo);
  let eventData := normalizeScheduleEvent w eventData (type eventInfo) in
  do version ← resolveGitleaksVersion w (version config);
  do _ ← emit (LogInfo ("Gitleaks version: " +:+ version));
  do gitleaksPath ← Scanner.Install w version;
  let scanConfig := {| config := config; eventData := eventData;
                       gitleaksPath := gitleaksPath |} in
  do exitCode ← performScan w (type eventInfo) eventData scanConfig;
  do _ ← generateSummary w exitCode eventData (enableSummary config);
  handleScanResult exitCode.

(** Entry point: [run().catch(...)].  The stack trace sent to the debug
    log has no counterpart here. *)
Definition main (w : World) : M unit :=
  try_catch (run w)
    (λ errorMessage,
      do _ ← emit (LogError ("Unexpected error: " +:+ errorMessage));
      exit 1).

(** The status the process ends with: that of [process.exit], or 0 when
    the entry point runs to its end. *)
Definition exit_status (m : M unit) : Z :=
  match result m with
  | Ret _ => 0
  | Exit status => status
  | Throw _ => 1
  end.

End Action.

(** ** Vocabulary of the statements *)

(** The tuple a fingerprint is built from. *)
Definition fingerprint_key (r : SarifResult) : string * string * string * Z :=
  (commitSha r, uri r, ruleId r, startLine r).

(** The same world with another process environment. *)
Definition with_env (e : gmap string string) (w : World) : World := {|
  env := e;
  platform := platform w;
  arch := arch w;
  tmpdir := tmpdir w;
  cwd := cwd w;
  repo_private := repo_private w;
  subscription_api := subscription_api w;
  event_file := event_file w;
  latest_release := latest_release w;
  cache_restore := cache_restore w;
  cache_save := cache_save w;
  download_tool := download_tool w;
  extract_zip := extract_zip w;
  extract_tar := extract_tar w;
  gitleaks := gitleaks w;
  upload_artifact := upload_artifact w;
  pull_commits := pull_commits w;
  pull_comments := pull_comments w;
  create_review_comment := create_review_comment w;
  report := report w;
|}.

Definition setenv (key value : string) (w : World) : World :=
  with_env (<[key:=value]> (env w)) w.

Definition unsetenv (key : string) (w : World) : World :=
  with_env (delete key (env w)) w.

(** The engine command lines a trace holds, in order. *)
Definition invocations (t : list effect) : list (string * list string) :=
  omap (λ e, match e with Exec tool args => Some (tool, args) | _ => None end) t.

(** The review comments a trace submitted to the hosting API, in order. *)
Definition submitted (t : list effect) : list PRComment :=
  omap (λ e, match e with CreateReviewComment c => Some c | _ => None end) t.

(** The keys a trace used on the binary cache, in order. *)
Definition cache_keys (t : list effect) : list string :=
  omap (λ e, match e with
             | CacheRestore _ key | CacheSave _ key => Some key
             | _ => None
             end) t.

(** The job summaries a trace wrote, in order. *)
Definition summaries (t : list effect) : list (list SummaryItem) :=
  omap (λ e, match e with SummaryWrite items => Some items | _ => None end) t.

(** A submitted comment as the hosting API lists it afterwards: same body
    and path, and the submitted line as [original_line]. *)
Definition as_existing (c : PRComment) : ExistingComment :=
  {| ec_body := pc_body c; ec_path := pc_path c;
     original_line := Some (line c) |}.

(** A variable of the environment holds the non-empty value [s]. *)
Definition supplied (v : option string) (s : string) : Prop :=
  v = Some s ∧ s ≠ "".

(** A variable of the environment is unset or empty. *)
Definition not_supplied (v : option string) : Prop :=
  v = None ∨ v = Some "".

(** An effect other than a run of the engine. *)
Definition not_exec (e : effect) : Prop :=
  match e with
  | Exec _ _ => False
  | _ => True
  end.

(** An effect that only writes to the log. *)
Definition log_only (e : effect) : Prop :=
  match e with
  | LogInfo _ | LogWarning _ | LogError _ | LogDebug _ => True
  | _ => False
  end.

(** The findings the comment reporter reads from the report. *)
Definition reported (w : World) : list SarifResult :=
  match result (Scanner.parseSarifFile w) with
  | Ret (Some found) => found
  | _ => []
  end.

(** A report from which no finding can be read: the file is absent, it
    cannot be read or parsed, it has no [runs[0].results], or that list is
    empty. *)
Definition no_details (f : ReportFile) : Prop :=
  match f with
  | ReportMissing | ReportUnreadable _ => True
  | ReportJson log =>
      match runs log with
      | None | Some [] => True
      | Some (run0 :: _) => results run0 = None ∨ results run0 = Some []
      end
  end.

(** The same world with another engine and another report file. *)
Definition with_engine
    (engine : gmap string string → list string → string + Z)
    (rep : ReportFile) (w : World) : World := {|
  env := env w;
  platform := platform w;
  arch := arch w;
  tmpdir := tmpdir w;
  cwd := cwd w;
  repo_private := repo_private w;
  subscription_api := subscription_api w;
  event_file := event_file w;
  latest_release := latest_release w;
  cache_restore := cache_restore w;
  cache_save := cache_save w;
  download_tool := download_tool w;
  extract_zip := extract_zip w;
  extract_tar := extract_tar w;
  gitleaks := engine;
  upload_artifact := upload_artifact w;
  pull_commits := pull_commits w;
  pull_comments := pull_comments w;
  create_review_comment := create_review_comment w;
  report := rep;
|}.

(** Every cache access of a trace uses the key [key]. *)
Definition uses_key (key : string) (e : effect) : Prop :=
  match e with
  | CacheRestore _ k | CacheSave _ k => k = key
  | _ => True
  end.

(** Every effect of a computation satisfies [P]. *)
Definition every (P : effect → Prop) {A} (m : M A) : Prop :=
  Forall P (trace m).

(** ** Sample data *)

Definition finding_a : SarifResult :=
  {| ruleId := "generic:api-key"; commitSha := "bbb2222"; author := "dev";
     date := "2024-01-01"; email := "dev@example.com";
     uri := "cfg"; startLine := 12 |}.

Definition finding_b : SarifResult :=
  {| ruleId := "api-key"; commitSha := "bbb2222"; author := "dev";
     date := "2024-01-01"; email := "dev@example.com";
     uri := "cfg:generic"; startLine := 12 |}.

Definition finding_c : SarifResult :=
  {| ruleId := "aws-key"; commitSha := "bbb2222"; author := "dev";
     date := "2024-01-01"; email := "dev@example.com";
     uri := "config.yml"; startLine := 12 |}.

Definition sample_repository : Repository :=
  {| html_url := "https://github.com/acme/app"; owner_login := "acme";
     full_name := "acme/app"; repo_name := "app" |}.

(** A pull-request payload with its own base and head commits. *)
Definition pull_request_event : EventData :=
  {| repository := sample_repository; commits := None; number := 7;
     pull_request := Some {| base_sha := "aaa1111"; head_sha := "bbb2222" |} |}.

(** A pull-request payload without them. *)
Definition bare_pull_request_event : EventData :=
  {| repository := sample_repository; commits := None; number := 7;
     pull_request := None |}.

(** A push that carries no commit. *)
Definition empty_push_event : EventData :=
  {| repository := sample_repository; commits := Some []; number := 0;
     pull_request := None |}.

(** A world in which every outside call succeeds: the cache misses, the
    engine exits with [code], the report file is [rep], the pull request
    has the commits [prs] and already carries the comments [existing]. *)
Definition sample_world (e : gmap string string) (plat : string)
    (ev : EventData) (code : Z) (rep : ReportFile)
    (prs : list PullCommit) (existing : list ExistingComment) : World := {|
  env := e;
  platform := plat;
  arch := "x64";
  tmpdir := "/tmp";
  cwd := "/home/runner/work";
  repo_private := Some false;
  subscription_api := SubscriptionAccepted;
  event_file := λ _, inr ev;
  latest_release := inr "v8.30.0";
  cache_restore := λ _, inr None;
  cache_save := λ _, inr tt;
  download_tool := λ _ dest, inr dest;
  extract_zip := inr tt;
  extract_tar := inr tt;
  gitleaks := λ _ _, inr code;
  upload_artifact := inr tt;
  pull_commits := inr prs;
  pull_comments := inr existing;
  create_review_comment := λ _, inr tt;
  report := rep;
|}.

Definition pull_request_env : gmap string string :=
  list_to_map [("GITHUB_EVENT_NAME", "pull_request");
               ("GITHUB_EVENT_PATH", "/github/workflow/event.json");
               ("GITHUB_TOKEN", "token")].

Definition push_env : gmap string string :=
  list_to_map [("GITHUB_EVENT_NAME", "push");
               ("GITHUB_EVENT_PATH", "/github/workflow/event.json");
               ("GITHUB_TOKEN", "token")].

Definition report_of (found : list SarifResult) : ReportFile :=
  ReportJson {| runs := Some [ {| results := Some found |} ] |}.

(** An engine that reads [GITLEAKS_CONFIG] from the environment it
    inherits: clean with a custom configuration, leaks without. *)
Definition config_sensitive_engine (e : gmap string string)
    (args : list string) : string + Z :=
  match e !! "GITLEAKS_CONFIG" with
  | Some _ => inr 0%Z
  | None => inr 2%Z
  end.

(** A push of one commit. *)
Definition single_push_event : EventData :=
  {| repository := sample_repository; commits := Some [ {| id := "bbb2222" |} ];
     number := 0; pull_request := None |}.

(** A push of one commit scanned by an engine that ignores its
    environment and reports leaks. *)
Definition deaf_engine_world : World :=
  sample_world push_env "linux" single_push_event 2 ReportMissing [] [].

(** The scenario of a pull request with one finding: a first run on a
    pull request without comments, and a second run that finds the comment
    of the first. *)
Definition first_run_world : World :=
  sample_world pull_request_env "linux" pull_request_event 2
               (report_of [finding_c]) [] [].

Definition first_run_comment : PRComment :=
  Scanner.buildReviewComment first_run_world finding_c "acme" (Some "app") 7.

Definition second_run_world : World :=
  sample_world pull_request_env "linux" pull_request_event 2
               (report_of [finding_c]) [] [as_existing first_run_comment].

(** A pull request of two listed commits, run with a base-ref override,
    and the same pull request seen through a payload without base and
    head. *)
Definition two_commits : list PullCommit :=
  [ {| sha := "ccc3333" |}; {| sha := "bbb2222" |} ].

Definition override_world : World :=
  sample_world (<["BASE_REF":="main"]> pull_request_env) "linux"
               pull_request_event 0 ReportMissing two_commits [].

Definition bare_world : World :=
  sample_world pull_request_env "linux" bare_pull_request_event 0
               ReportMissing two_commits [].

(** ** Vocabulary of the further properties *)

(** An effect that neither downloads nor extracts nor saves to the cache. *)
Definition no_acquisition (e : effect) : Prop :=
  match e with
  | Download _ _ | ExtractZip _ _ | ExtractTar _ _ | CacheSave _ _ => False
  | _ => True
  end.

(** A world whose cache holds the binary of every version. *)
Definition cached_world : World :=
  {| env := push_env; platform := "linux"; arch := "x64"; tmpdir := "/tmp";
     cwd := "/home/runner/work"; repo_private := Some false;
     subscription_api := SubscriptionAccepted;
     event_file := λ _, inr single_push_event;
     latest_release := inr "v8.30.0";
     cache_restore := λ key, inr (Some key);
     cache_save := λ _, inr tt;
     download_tool := λ _ _, inl "no network";
     extract_zip := inr tt; extract_tar := inr tt;
     gitleaks := λ _ _, inr 0%Z; upload_artifact := inr tt;
     pull_commits := inr []; pull_comments := inr [];
     create_review_comment := λ _, inr tt; report := ReportMissing |}.

(** A world whose cache fails both ways while the download works. *)
Definition broken_cache_world : World :=
  {| env := push_env; platform := "linux"; arch := "x64"; tmpdir := "/tmp";
     cwd := "/home/runner/work"; repo_private := Some false;
     subscription_api := SubscriptionAccepted;
     event_file := λ _, inr single_push_event;
     latest_release := inr "v8.30.0";
     cache_restore := λ _, inl "cache service unavailable";
     cache_save := λ _, inl "cache service unavailable";
     download_tool := λ _ dest, inr dest;
     extract_zip := inr tt; extract_tar := inr tt;
     gitleaks := λ _ _, inr 0%Z; upload_artifact := inr tt;
     pull_commits := inr []; pull_comments := inr [];
     create_review_comment := λ _, inr tt; report := ReportMissing |}.

(** An effect other than a lookup of the latest release. *)
Definition no_release_lookup (e : effect) : Prop :=
  match e with
  | GetLatestRelease _ _ => False
  | _ => True
  end.

(** An effect that writes to the log or asks the subscription service. *)
Definition log_or_subscription (e : effect) : Prop :=
  match e with
  | LogInfo _ | LogWarning _ | LogError _ | LogDebug _
  | SubscriptionPost _ _ => True
  | _ => False
  end.

(** An effect other than listing or creating review comments. *)
Definition no_comment_api (e : effect) : Prop :=
  match e with
  | ListPullComments _ _ _ | CreateReviewComment _ => False
  | _ => True
  end.

(** The seven arguments every engine command line starts with. *)
Definition fixed_arguments : list string :=
  ["detect"; "--redact"; "-v"; "--exit-code=2"; "--report-format=sarif";
   "--report-path=results.sarif"; "--log-level=debug"].

(** A run whose configured version is a fixed one. *)
Definition pinned_version_world : World :=
  sample_world (<["GITLEAKS_VERSION":="8.21.0"]> push_env) "linux"
               single_push_event 0 ReportMissing [] [].

(** A run started by an event the action does not handle. *)
Definition unsupported_event_world : World :=
  sample_world (<["GITHUB_EVENT_NAME":="release"]> push_env) "linux"
               single_push_event 0 ReportMissing [] [].

(** How a stage that has run the engine ends when the engine exits with
    [code]: it returns that code or throws. *)
Definition ends_with_code {A} (code : A) (o : outcome A) : Prop :=
  o = Ret code ∨ ∃ msg, o = Throw msg.

(** A pull-request run in which the engine reports leaks and the listing
    of the existing comments is rejected. *)
Definition failing_listing_world : World :=
  {| env := pull_request_env; platform := "linux"; arch := "x64";
     tmpdir := "/tmp"; cwd := "/home/runner/work";
     repo_private := Some false;
     subscription_api := SubscriptionAccepted;
     event_file := λ _, inr pull_request_event;
     latest_release := inr "v8.30.0";
     cache_restore := λ _, inr None; cache_save := λ _, inr tt;
     download_tool := λ _ dest, inr dest;
     extract_zip := inr tt; extract_tar := inr tt;
     gitleaks := λ _ _, inr 2%Z; upload_artifact := inr tt;
     pull_commits := inr [];
     pull_comments := inl "Resource not accessible by integration";
     create_review_comment := λ _, inr tt;
     report := report_of [finding_c] |}.

(** A pull-request run without the token of the hosting API. *)
Definition tokenless_world : World :=
  sample_world (delete "GITHUB_TOKEN" pull_request_env) "linux"
               pull_request_event 0 ReportMissing two_commits [].

(** A push of three commits. *)
Definition three_commit_push : EventData :=
  {| repository := sample_repository;
     commits := Some [ {| id := "aaa1111" |}; {| id := "ccc3333" |};
                       {| id := "bbb2222" |} ];
     number := 0; pull_request := None |}.

(** The warnings a trace logged, in order. *)
Definition warnings (t : list effect) : list string :=
  omap (λ e, match e with LogWarning msg => Some msg | _ => None end) t.

(** A pull-request run in which the engine reports two findings and the
    hosting API rejects every new comment. *)
Definition rejecting_world : World :=
  {| env := pull_request_env; platform := "linux"; arch := "x64";
     tmpdir := "/tmp"; cwd := "/home/runner/work";
     repo_private := Some false;
     subscription_api := SubscriptionAccepted;
     event_file := λ _, inr pull_request_event;
     latest_release := inr "v8.30.0";
     cache_restore := λ _, inr None; cache_save := λ _, inr tt;
     download_tool := λ _ dest, inr dest;
     extract_zip := inr tt; extract_tar := inr tt;
     gitleaks := λ _ _, inr 2%Z; upload_artifact := inr tt;
     pull_commits := inr []; pull_comments := inr [];
     create_review_comment := λ _, inl "Validation Failed";
     report := report_of [finding_c; finding_b] |}.

(** A pull-request run with comments switched off. *)
Definition comments_off_world : World :=
  sample_world (<["GITLEAKS_ENABLE_COMMENTS":="false"]> pull_request_env)
               "linux" pull_request_event 2 (report_of [finding_c]) [] [].

(** An effect other than an upload of the report. *)
Definition not_upload (e : effect) : Prop :=
  match e with
  | UploadArtifact _ _ _ => False
  | _ => True
  end.

(** The mention list as the comment body uses it: nothing for an unset or
    empty variable. *)
Definition mentions (v : option string) : option string :=
  if Js.truthy v then v else None.

(** A run whose artifact upload is rejected. *)
Definition failing_upload_world : World :=
  {| env := push_env; platform := "linux"; arch := "x64";
     tmpdir := "/tmp"; cwd := "/home/runner/work";
     repo_private := Some false;
     subscription_api := SubscriptionAccepted;
     event_file := λ _, inr single_push_event;
     latest_release := inr "v8.30.0";
     cache_restore := λ _, inr None; cache_save := λ _, inr tt;
     download_tool := λ _ dest, inr dest;
     extract_zip := inr tt; extract_tar := inr tt;
     gitleaks := λ _ _, inr 0%Z;
     upload_artifact := inl "Artifact storage quota has been hit";
     pull_commits := inr []; pull_comments := inr [];
     create_review_comment := λ _, inr tt; report := report_of [] |}.

(** A scheduled run: the payload has no usable repository, the
    environment names it. *)
Definition schedule_env : gmap string string :=
  list_to_map [("GITHUB_EVENT_NAME", "schedule");
               ("GITHUB_EVENT_PATH", "/github/workflow/event.json");
               ("GITHUB_REPOSITORY_OWNER", "acme");
               ("GITHUB_REPOSITORY", "acme/app")].

Definition schedule_world : World :=
  sample_world schedule_env "linux"
    {| repository := {| html_url := ""; owner_login := ""; full_name := "";
                        repo_name := "" |};
       commits := None; number := 0; pull_request := None |}
    0 ReportMissing [] [].

(** A private repository without subscription. *)
Definition unsubscribed_world : World :=
  {| env := push_env; platform := "linux"; arch := "x64";
     tmpdir := "/tmp"; cwd := "/home/runner/work";
     repo_private := Some true;
     subscription_api := SubscriptionForbidden;
     event_file := λ _, inr single_push_event;
     latest_release := inr "v8.30.0";
     cache_restore := λ _, inr None; cache_save := λ _, inr tt;
     download_tool := λ _ dest, inr dest;
     extract_zip := inr tt; extract_tar := inr tt;
     gitleaks := λ _ _, inr 0%Z; upload_artifact := inr tt;
     pull_commits := inr []; pull_comments := inr [];
     create_review_comment := λ _, inr tt; report := ReportMissing |}.

(** A pull request whose commit listing comes back empty, scanned with a
    base-ref override. *)
Definition empty_listing_world : World :=
  sample_world (<["BASE_REF":="main"]> pull_request_env) "linux"
               pull_request_event 0 ReportMissing [] [].

(** * Properties *)

(** ** Strings and decimal numerals *)

Section StringFacts.

Lemma app_cons (c : ascii) (a b : string) :
  String c a +:+ b = String c (a +:+ b).
Proof. reflexivity. Qed.

Lemma app_empty_l (a : string) : "" +:+ a = a.
Proof. reflexivity. Qed.

Lemma string_app_assoc (a b c : string) : (a +:+ b) +:+ c = a +:+ b +:+ c.
Proof.
  induction a as [|x a IH]; [reflexivity|].
  rewrite !app_cons. by rewrite IH.
Qed.

Lemma string_length_app (a b : string) :
  String.length (a +:+ b) = (String.length a + String.length b)%nat.
Proof.
  induction a as [|x a IH]; [reflexivity|].
  rewrite app_cons. simpl. by rewrite IH.
Qed.

Lemma string_app_inv_tail (a b c : string) : a +:+ c = b +:+ c → a = b.
Proof.
  revert b. induction a as [|x a IH]; intros [|y b] Heq.
  - done.
  - apply (f_equal String.length) in Heq.
    rewrite app_empty_l, app_cons in Heq. simpl in Heq.
    rewrite string_length_app in Heq. lia.
  - apply (f_equal String.length) in Heq.
    rewrite app_empty_l, app_cons in Heq. simpl in Heq.
    rewrite string_length_app in Heq. lia.
  - rewrite !app_cons in Heq. injection Heq as -> Heq. f_equal. by apply IH.
Qed.

Lemma app_regroup (c : ascii) (a b z : string) :
  a +:+ String c (b +:+ z) = (a +:+ String c b) +:+ z.
Proof. by rewrite string_app_assoc, app_cons. Qed.

Lemma contains_char_app (c : ascii) (a b : string) :
  Js.contains_char c (a +:+ b)
  = Js.contains_char c a || Js.contains_char c b.
Proof.
  induction a as [|x a IH]; [reflexivity|].
  rewrite app_cons. simpl. rewrite IH. by rewrite orb_assoc.
Qed.

Lemma contains_char_here (c : ascii) (a b : string) :
  Js.contains_char c (a +:+ String c b) = true.
Proof.
  rewrite contains_char_app. simpl. rewrite Ascii.eqb_refl.
  by rewrite orb_true_r.
Qed.

(** The text before the first occurrence of a separator is determined
    by the whole. *)
Lemma split_at_first (c : ascii) (a a' r r' : string) :
  Js.contains_char c a = false →
  Js.contains_char c a' = false →
  a +:+ String c r = a' +:+ String c r' →
  a = a' ∧ r = r'.
Proof.
  revert a'. induction a as [|x a IH]; intros [|x' a'] Ha Ha' Heq.
  - rewrite !app_empty_l in Heq. by simplify_eq.
  - rewrite app_empty_l, app_cons in Heq. simplify_eq.
    simpl in Ha'. by rewrite Ascii.eqb_refl in Ha'.
  - rewrite app_empty_l, app_cons in Heq. simplify_eq.
    simpl in Ha. by rewrite Ascii.eqb_refl in Ha.
  - rewrite !app_cons in Heq. injection Heq as -> Heq.
    simpl in Ha, Ha'. apply orb_false_iff in Ha as [_ Ha].
    apply orb_false_iff in Ha' as [_ Ha'].
    destruct (IH a' Ha Ha' Heq) as [-> ->]. done.
Qed.

(** The text after the last occurrence of a separator is determined by
    the whole. *)
Lemma split_at_last (c : ascii) (p p' z z' : string) :
  Js.contains_char c z = false →
  Js.contains_char c z' = false →
  p +:+ String c z = p' +:+ String c z' →
  p = p' ∧ z = z'.
Proof.
  revert p'. induction p as [|x p IH]; intros [|x' p'] Hz Hz' Heq.
  - rewrite !app_empty_l in Heq. by simplify_eq.
  - rewrite app_empty_l, app_cons in Heq. simplify_eq.
    by rewrite contains_char_here in Hz.
  - rewrite app_empty_l, app_cons in Heq. simplify_eq.
    by rewrite contains_char_here in Hz'.
  - rewrite !app_cons in Heq. injection Heq as -> Heq.
    destruct (IH p' Hz Hz' Heq) as [-> ->]. done.
Qed.

Lemma uint_digits_no_colon (d : Decimal.uint) :
  Js.contains_char ":" (NilEmpty.string_of_uint d) = false.
Proof. induction d; simpl; auto. Qed.

Lemma number_to_string_no_colon (n : Z) :
  Js.contains_char ":" (Js.number_to_string n) = false.
Proof.
  unfold Js.number_to_string, NilZero.string_of_int, NilZero.string_of_uint.
  destruct (Z.to_int n) as [d|d]; destruct d; simpl;
    auto using uint_digits_no_colon.
Qed.

Lemma to_int_proper (n : Z) :
  Z.to_int n ≠ Decimal.Pos Decimal.Nil ∧ Z.to_int n ≠ Decimal.Neg Decimal.Nil.
Proof.
  destruct n as [|p|p]; simpl; split; try discriminate;
    intros [= H]; by apply Unsigned.to_uint_nonnil in H.
Qed.

Lemma number_to_string_inj (n m : Z) :
  Js.number_to_string n = Js.number_to_string m → n = m.
Proof.
  unfold Js.number_to_string. intros Heq.
  destruct (to_int_proper n) as [Hn1 Hn2].
  destruct (to_int_proper m) as [Hm1 Hm2].
  pose proof (NilZero.isi _ Hn1 Hn2) as Hn.
  pose proof (NilZero.isi _ Hm1 Hm2) as Hm.
  rewrite Heq, Hm in Hn. injection Hn as Hn.
  rewrite <- (DecimalZ.of_to n), <- (DecimalZ.of_to m). by rewrite Hn.
Qed.

End StringFacts.

(** ** Traces of composed computations *)

Section TraceFacts.
Context {A B : Type}.

Lemma trace_bind (m : M A) (f : A → M B) :
  trace (bind m f)
  = trace m ++ match result m with Ret a => trace (f a) | _ => [] end.
Proof.
  destruct m as [t [a|s|e]]; simpl; rewrite ?app_nil_r; try done.
  by destruct (f a).
Qed.

Lemma result_bind (m : M A) (f : A → M B) :
  result (bind m f)
  = match result m with
    | Ret a => result (f a)
    | Exit s => Exit s
    | Throw e => Throw e
    end.
Proof. destruct m as [t [a|s|e]]; simpl; try done. by destruct (f a). Qed.

Lemma bind_Ret (t : list effect) (a : A) (f : A → M B) :
  bind (t, Ret a) f = (t ++ trace (f a), result (f a)).
Proof. simpl. by destruct (f a). Qed.

Lemma trace_try_catch (m : M A) (h : string → M A) :
  trace (try_catch m h)
  = trace m ++ match result m with Throw e => trace (h e) | _ => [] end.
Proof.
  destruct m as [t [a|s|e]]; simpl; rewrite ?app_nil_r; try done.
  by destruct (h e).
Qed.

End TraceFacts.

(** A property of every effect of a computation, proved along its
    structure. *)
Section EveryEffect.
Context (P : effect → Prop).
Local Abbreviation every := (every P).

Lemma every_ret {A} (a : A) : every (ret a).
Proof. constructor. Qed.

Lemma every_exit {A} (s : Z) : every (@exit A s).
Proof. constructor. Qed.

Lemma every_throw {A} (e : string) : every (@throw A e).
Proof. constructor. Qed.

Lemma every_emit (e : effect) : P e → every (emit e).
Proof. intros. by repeat constructor. Qed.

Lemma every_call {A} (e : effect) (answer : string + A) :
  P e → every (call e answer).
Proof. intros. destruct answer; by repeat constructor. Qed.

Lemma every_bind {A B} (m : M A) (f : A → M B) :
  every m → (∀ a, result m = Ret a → every (f a)) → every (bind m f).
Proof.
  unfold every. intros Hm Hf. rewrite trace_bind. apply Forall_app.
  split; [done|]. destruct (result m); [by apply Hf | constructor..].
Qed.

Lemma every_try_catch {A} (m : M A) (h : string → M A) :
  every m → (∀ e, result m = Throw e → every (h e)) → every (try_catch m h).
Proof.
  unfold every. intros Hm Hh. rewrite trace_try_catch. apply Forall_app.
  split; [done|]. destruct (result m); [constructor.. | by apply Hh].
Qed.

Lemma every_when (c : bool) (m : M unit) : every m → every (when c m).
Proof. destruct c; [done | intros; apply every_ret]. Qed.

Lemma every_for_of {A} (xs : list A) (body : A → M unit) :
  (∀ x, every (body x)) → every (for_of xs body).
Proof.
  intros Hbody. induction xs as [|x xs IH]; simpl.
  - apply every_ret.
  - apply every_bind; [apply Hbody | done].
Qed.

End EveryEffect.

(** Splits a goal [every P m] along the structure of [m], leaving one goal
    [P e] per effect. *)
Ltac every_step :=
  lazymatch goal with
  | |- every _ (bind _ _) => apply every_bind; [|intros ? _]
  | |- every _ (try_catch _ _) => apply every_try_catch; [|intros ? _]
  | |- every _ (when _ _) => apply every_when
  | |- every _ (for_of _ _) => apply every_for_of; intros ?
  | |- every _ (emit _) => apply every_emit
  | |- every _ (call _ _) => apply every_call
  | |- every _ (ret _) => apply every_ret
  | |- every _ (exit _) => apply every_exit
  | |- every _ (throw _) => apply every_throw
  | |- every _ (let _ := _ in _) => cbv zeta
  | |- every _ (if ?c then _ else _) => destruct c
  | |- every _ (match ?x with _ => _ end) => destruct x
  end.

Ltac every_effect := repeat every_step.

(** ** Fingerprints *)

Section Fingerprint.
Import Scanner.

Example fingerprint_scenario :
  buildSecretFingerprint finding_c = "bbb2222:config.yml:aws-key:12".
Proof. reflexivity. Qed.

(** C3, as stated, fails: two findings that differ in file path and rule
    id, one with a colon in its rule id and the other with a colon in its
    file path, get the same fingerprint [bbb2222:cfg:generic:api-key:12]. *)
Lemma C3_fingerprint_collision :
  fingerprint_key finding_a ≠ fingerprint_key finding_b
  ∧ buildSecretFingerprint finding_a = buildSecretFingerprint finding_b.
Proof. split; [discriminate | reflexivity]. Qed.

Lemma fingerprint_key_inj (F1 F2 : SarifResult) :
  Js.contains_char ":" (commitSha F1) = false →
  Js.contains_char ":" (commitSha F2) = false →
  Js.contains_char ":" (ruleId F1) = false →
  Js.contains_char ":" (ruleId F2) = false →
  buildSecretFingerprint F1 = buildSecretFingerprint F2 →
  fingerprint_key F1 = fingerprint_key F2.
Proof.
  intros Hs1 Hs2 Hr1 Hr2. unfold buildSecretFingerprint, fingerprint_key.
  change ":" with (String ":" "")%string. rewrite !app_cons, !app_empty_l.
  intros Heq.
  apply split_at_first in Heq as [Hsha Heq]; [|done..].
  rewrite !app_regroup in Heq.
  apply split_at_last in Heq as [Heq Hline];
    [|apply number_to_string_no_colon..].
  apply number_to_string_inj in Hline.
  apply split_at_last in Heq as [Hpath Hrule]; [|done..].
  congruence.
Qed.

(** C3 (amended): over findings whose commit identifier and rule id hold
    no colon, the fingerprint is injective on (commitSha, filePath,
    ruleId, startLine); the file path is unrestricted. *)
Theorem C3_fingerprint_injective (F1 F2 : SarifResult) :
  Js.contains_char ":" (commitSha F1) = false →
  Js.contains_char ":" (commitSha F2) = false →
  Js.contains_char ":" (ruleId F1) = false →
  Js.contains_char ":" (ruleId F2) = false →
  fingerprint_key F1 ≠ fingerprint_key F2 →
  buildSecretFingerprint F1 ≠ buildSecretFingerprint F2.
Proof.
  intros Hs1 Hs2 Hr1 Hr2 Hkey Hfp. apply Hkey.
  by apply fingerprint_key_inj.
Qed.

Lemma C3_fingerprint_injective_witness :
  buildSecretFingerprint finding_b ≠ buildSecretFingerprint finding_c.
Proof.
  apply (C3_fingerprint_injective finding_b finding_c);
    [reflexivity | reflexivity | reflexivity | reflexivity | discriminate].
Defined.

End Fingerprint.

(** ** Binary cache key *)

Section CacheKey.
Import Scanner.

Lemma normalizePlatform_fixed (p : string) :
  normalizePlatform p = p ↔ p ≠ "win32".
Proof.
  unfold normalizePlatform. destruct (String.eqb_spec p "win32") as [->|Hne].
  - split; [discriminate | done].
  - done.
Qed.

Lemma buildCacheKey_platform_inj (v p q a : string) :
  buildCacheKey v p a = buildCacheKey v q a → p = q.
Proof.
  unfold buildCacheKey. intros Heq.
  do 3 apply String.app_inj in Heq.
  by apply string_app_inv_tail in Heq.
Qed.

(** C7, as stated, fails: on platform [win32] the key used on the cache
    names [win32], while the release URL of the same run names
    [windows]. *)
Lemma C7_cache_key_not_normalized :
  let w := sample_world ∅ "win32" empty_push_event 0 ReportMissing [] [] in
  cache_keys (trace (Install w "8.24.3"))
  = ["gitleaks-cache-8.24.3-win32-x64"; "gitleaks-cache-8.24.3-win32-x64"]
  ∧ buildCacheKey "8.24.3" "win32" "x64"
    ≠ buildCacheKey "8.24.3" (normalizePlatform "win32") "x64"
  ∧ buildReleaseUrl "8.24.3" "win32" "x64"
    = "https://github.com/zricethezav/gitleaks/releases/download/v8.24.3/gitleaks_8.24.3_windows_x64.tar.gz".
Proof. split; [reflexivity | split; [discriminate | reflexivity]]. Qed.

End CacheKey.

Section CacheKeyInstall.
Import Scanner.

Lemma cache_keys_uses_key (key : string) (t : list effect) :
  Forall (uses_key key) t → ∀ k, k ∈ cache_keys t → k = key.
Proof.
  intros Hall k. unfold cache_keys. rewrite list_elem_of_omap.
  intros (e & Hin & He). rewrite Forall_forall in Hall.
  specialize (Hall e Hin). destruct e; simplify_eq/=; done.
Qed.

Lemma Install_uses_key (w : World) (version : string) :
  every (uses_key (buildCacheKey version (platform w) (arch w)))
        (Install w version).
Proof.
  unfold Install, tryRestoreFromCache, downloadAndInstallBinary,
    downloadBinary, extractArchive, trySaveToCache.
  every_effect; done.
Qed.

(** C7 (amended): the cache key of an installation is built from the
    version, the platform name as the runtime reports it and the
    architecture.  It is the first thing asked of the cache and the only
    key used; it agrees with the key of the normalized platform name
    exactly off [win32]. *)
Theorem C7_cache_key_raw_platform (w : World) (version : string) :
  let key := "gitleaks-cache-" +:+ version +:+ "-" +:+ platform w +:+ "-"
             +:+ arch w in
  (∃ msg rest,
      trace (Install w version)
      = LogInfo msg :: CacheRestore [getInstallPath w version] key :: rest)
  ∧ (∀ k, k ∈ cache_keys (trace (Install w version)) → k = key)
  ∧ (key = buildCacheKey version (normalizePlatform (platform w)) (arch w)
     ↔ platform w ≠ "win32").
Proof.
  intros key. split; [|split].
  - unfold Install, tryRestoreFromCache.
    rewrite !trace_bind, trace_try_catch, trace_bind. simpl.
    fold (buildCacheKey version (platform w) (arch w)).
    destruct (cache_restore w _) as [msg|restored]; simpl;
      eexists _, _; reflexivity.
  - apply cache_keys_uses_key, Install_uses_key.
  - split.
    + intros Heq. apply buildCacheKey_platform_inj in Heq.
      by apply normalizePlatform_fixed.
    + intros Hne. apply normalizePlatform_fixed in Hne. by rewrite Hne.
Qed.

Lemma C7_cache_key_raw_platform_witness :
  cache_keys (trace (Install first_run_world "8.24.3"))
  = ["gitleaks-cache-8.24.3-linux-x64"; "gitleaks-cache-8.24.3-linux-x64"]
  ∧ "gitleaks-cache-8.24.3-linux-x64"
    = buildCacheKey "8.24.3" (normalizePlatform "linux") "x64".
Proof.
  split; [reflexivity|].
  pose proof (C7_cache_key_raw_platform first_run_world "8.24.3") as H.
  cbv zeta in H. destruct H as (_ & _ & H).
  apply H. discriminate.
Defined.

End CacheKeyInstall.

(** ** Enable/disable flags *)

Section Flags.
Import Scanner Action.

Lemma getenv_setenv (key value : string) (w : World) :
  getenv (setenv key value w) key = Some value.
Proof. unfold getenv, setenv. simpl. apply lookup_insert_eq. Qed.

Lemma parseBooleanEnv_off (w : World) (key : string) :
  parseBooleanEnv w key true = false
  ↔ getenv w key = Some "false" ∨ getenv w key = Some "0".
Proof.
  unfold parseBooleanEnv. repeat case_bool_decide; simpl; split; auto.
  - discriminate.
  - intros [?|?]; done.
Qed.

Lemma shouldPostComments_off (w : World) :
  shouldPostComments w = false
  ↔ getenv w "GITLEAKS_ENABLE_COMMENTS" = Some "false".
Proof.
  unfold shouldPostComments. case_bool_decide; simpl; split; auto; done.
Qed.

(** C10: the summary and artifact-upload flags are off exactly when their
    variable is the string [false] or [0]; the comments flag is off exactly
    when its variable is the string [false], so [0] (like the empty string
    or no value at all) leaves commenting on, while the same [0] turns the
    other two flags off. *)
Theorem C10_flags_parsed_asymmetrically (w : World) :
  (enableSummary (parseEnvironmentConfig w) = false
   ↔ getenv w "GITLEAKS_ENABLE_SUMMARY" = Some "false"
     ∨ getenv w "GITLEAKS_ENABLE_SUMMARY" = Some "0")
  ∧ (enableUploadArtifact (parseEnvironmentConfig w) = false
     ↔ getenv w "GITLEAKS_ENABLE_UPLOAD_ARTIFACT" = Some "false"
       ∨ getenv w "GITLEAKS_ENABLE_UPLOAD_ARTIFACT" = Some "0")
  ∧ (shouldPostComments w = false
     ↔ getenv w "GITLEAKS_ENABLE_COMMENTS" = Some "false")
  ∧ shouldPostComments (setenv "GITLEAKS_ENABLE_COMMENTS" "0" w) = true
  ∧ enableSummary
      (parseEnvironmentConfig (setenv "GITLEAKS_ENABLE_SUMMARY" "0" w)) = false
  ∧ enableUploadArtifact
      (parseEnvironmentConfig (setenv "GITLEAKS_ENABLE_UPLOAD_ARTIFACT" "0" w))
    = false.
Proof.
  repeat split.
  - apply parseBooleanEnv_off.
  - apply parseBooleanEnv_off.
  - apply parseBooleanEnv_off.
  - apply parseBooleanEnv_off.
  - apply shouldPostComments_off.
  - apply shouldPostComments_off.
  - unfold shouldPostComments. by rewrite getenv_setenv.
  - apply parseBooleanEnv_off. right. apply getenv_setenv.
  - apply parseBooleanEnv_off. right. apply getenv_setenv.
Qed.

Lemma C10_flags_parsed_asymmetrically_witness :
  let w := setenv "GITLEAKS_ENABLE_SUMMARY" "false" first_run_world in
  enableSummary (parseEnvironmentConfig w) = false.
Proof.
  intros w.
  destruct (C10_flags_parsed_asymmetrically w) as ([_ H] & _).
  apply H. left. reflexivity.
Defined.

Example flags_unset :
  let w := sample_world ∅ "linux" empty_push_event 0 ReportMissing [] [] in
  enableSummary (parseEnvironmentConfig w) = true
  ∧ enableUploadArtifact (parseEnvironmentConfig w) = true
  ∧ shouldPostComments w = true.
Proof. by vm_compute. Qed.

End Flags.

(** ** Exit-code mapping *)

Section ExitCodes.
Import Scanner Action.

Example exit_status_clean : exit_status (handleScanResult 0) = 0%Z.
Proof. reflexivity. Qed.

Example exit_status_leaks : exit_status (handleScanResult 2) = 1%Z.
Proof. reflexivity. Qed.

Example exit_status_error : exit_status (handleScanResult 126) = 126%Z.
Proof. reflexivity. Qed.

(** C1: every engine exit code falls in exactly one of three cases.  Code 0
    is the clean outcome: the handler returns, the process ends with status
    0 and the success summary is written.  Code 2 is the leaks outcome: the
    process exits with status 1 and the leaks summary is written.  Any
    other code is an execution error: the process exits with that very
    code and the error summary names it. *)
Theorem C1_exit_code_mapping (w : World) (eventJSON : EventData) (e : Z) :
  (e = 0%Z
   ∧ result (handleScanResult e) = Ret tt
   ∧ exit_status (handleScanResult e) = 0%Z
   ∧ writeSummary w e eventJSON = writeSuccessSummary)
  ∨ (e = 2%Z
     ∧ result (handleScanResult e) = Exit 1
     ∧ exit_status (handleScanResult e) = 1%Z
     ∧ writeSummary w e eventJSON
       = writeLeaksDetectedSummary w (html_url (repository eventJSON)))
  ∨ (e ≠ 0%Z ∧ e ≠ 2%Z
     ∧ result (handleScanResult e) = Exit e
     ∧ exit_status (handleScanResult e) = e
     ∧ writeSummary w e eventJSON = writeErrorSummary e).
Proof.
  unfold handleScanResult, writeSummary, exit_status.
  change (ES_SUCCESS EXIT_STATUS) with 0%Z.
  change (SUCCESS Action.EXIT_CODES) with 0%Z.
  change EXIT_CODE_LEAKS_DETECTED with 2%Z.
  change (LEAKS_FOUND Action.EXIT_CODES) with 2%Z.
  destruct (Z.eqb_spec e 0) as [->|H0]; [left; done|].
  destruct (Z.eqb_spec e 2) as [->|H2]; [right; left; done|].
  right; right. done.
Qed.

End ExitCodes.

(** ** Scan range of a pull request *)

Section PullRequestRange.
Import Scanner.

Lemma truthy_supplied (v : option string) (s : string) :
  supplied v s → Js.truthy v = true ∧ Js.show v = s.
Proof.
  intros [-> Hne]. simpl. split; [|done].
  by destruct (String.eqb_spec s "").
Qed.

Lemma truthy_not_supplied (v : option string) :
  not_supplied v → Js.truthy v = false.
Proof. by intros [-> | ->]. Qed.

Lemma sha_at_first (commits : list PullCommit) (c : PullCommit) :
  head commits = Some c → sha_at commits (Some 0%nat) = ret (sha c).
Proof. rewrite head_lookup. unfold sha_at. simpl. by intros ->. Qed.

Lemma sha_at_last (commits : list PullCommit) (c : PullCommit) :
  last commits = Some c → sha_at commits (last_index commits) = ret (sha c).
Proof.
  rewrite last_lookup. unfold sha_at, last_index.
  destruct commits as [|c0 rest]; [done|]. simpl. by intros ->.
Qed.

Example override_with_empty_list :
  buildScanInfoFromCommits [] (Some "main")
  = ([], Throw "Cannot read properties of undefined (reading 'sha')").
Proof. reflexivity. Qed.

(** C6: the scan range of a pull-request run.  With a base-ref override
    the commit list is fetched, the override is the base and the last
    listed commit the head.  Without one, a payload that carries its own
    base and head commits supplies both and nothing is fetched.  Otherwise
    the commit list is fetched and its first and last entries are base and
    head.  (The two fetching cases speak of a list that has a last entry.) *)
Theorem C6_pull_request_range (w : World) (owner : string)
    (repo : option string) (pullNumber : Z) (eventJSON : EventData) :
  let m := pullRequestScanInfo w owner repo pullNumber eventJSON in
  (∀ override commits c_last,
     supplied (getenv w "BASE_REF") override →
     pull_commits w = inr commits →
     last commits = Some c_last →
     m = ([ListPullCommits owner repo pullNumber;
           LogInfo ("Using base ref override: " +:+ override)],
          Ret {| baseRef := Some override; headRef := Some (sha c_last);
                 gitleaksPath := None |}))
  ∧ (∀ pr,
       not_supplied (getenv w "BASE_REF") →
       pull_request eventJSON = Some pr →
       m = ([LogInfo ("Scanning PR from " +:+ Js.substring0 7 (base_sha pr)
                      +:+ " to " +:+ Js.substring0 7 (head_sha pr))],
            Ret {| baseRef := Some (base_sha pr);
                   headRef := Some (head_sha pr);
                   gitleaksPath := None |}))
  ∧ (∀ commits c_first c_last,
       not_supplied (getenv w "BASE_REF") →
       pull_request eventJSON = None →
       pull_commits w = inr commits →
       head commits = Some c_first →
       last commits = Some c_last →
       m = ([ListPullCommits owner repo pullNumber],
            Ret {| baseRef := Some (sha c_first);
                   headRef := Some (sha c_last);
                   gitleaksPath := None |})).
Proof.
  intros m. subst m. unfold pullRequestScanInfo, fetchPullRequestCommits.
  split; [|split].
  - intros override commits c_last Hsup Hfetch Hlast.
    destruct (truthy_supplied _ _ Hsup) as [Ht Hshow].
    rewrite Ht, Hfetch. unfold call. rewrite bind_Ret.
    unfold buildScanInfoFromCommits.
    rewrite Ht, Hshow, (sha_at_last _ _ Hlast). reflexivity.
  - intros pr Hno Hpr. rewrite (truthy_not_supplied _ Hno), Hpr. reflexivity.
  - intros commits c_first c_last Hno Hpr Hfetch Hfirst Hlast.
    rewrite (truthy_not_supplied _ Hno), Hpr, Hfetch.
    unfold call. rewrite bind_Ret. unfold buildScanInfoFromCommits.
    simpl Js.truthy. cbv iota.
    rewrite (sha_at_first _ _ Hfirst), (sha_at_last _ _ Hlast). reflexivity.
Qed.

Lemma C6_pull_request_range_witness :
  result (pullRequestScanInfo override_world "acme" (Some "app") 7
                              pull_request_event)
  = Ret {| baseRef := Some "main"; headRef := Some "bbb2222";
           gitleaksPath := None |}
  ∧ pullRequestScanInfo first_run_world "acme" (Some "app") 7
                        pull_request_event
    = ([LogInfo "Scanning PR from aaa1111 to bbb2222"],
       Ret {| baseRef := Some "aaa1111"; headRef := Some "bbb2222";
              gitleaksPath := None |})
  ∧ result (pullRequestScanInfo bare_world "acme" (Some "app") 7
                                bare_pull_request_event)
    = Ret {| baseRef := Some "ccc3333"; headRef := Some "bbb2222";
             gitleaksPath := None |}.
Proof.
  split; [|split].
  - pose proof (C6_pull_request_range override_world "acme" (Some "app") 7
                  pull_request_event) as H.
    cbv zeta in H. destruct H as (H & _ & _).
    rewrite (H "main" two_commits {| sha := "bbb2222" |});
      [reflexivity | split; [reflexivity | discriminate]
       | reflexivity | reflexivity].
  - pose proof (C6_pull_request_range first_run_world "acme" (Some "app") 7
                  pull_request_event) as H.
    cbv zeta in H. destruct H as (_ & H & _).
    apply (H {| base_sha := "aaa1111"; head_sha := "bbb2222" |});
      [left; reflexivity | reflexivity].
  - pose proof (C6_pull_request_range bare_world "acme" (Some "app") 7
                  bare_pull_request_event) as H.
    cbv zeta in H. destruct H as (_ & _ & H).
    rewrite (H two_commits {| sha := "ccc3333" |} {| sha := "bbb2222" |});
      [reflexivity | left; reflexivity | reflexivity | reflexivity
       | reflexivity | reflexivity].
Defined.

Example override_reaches_engine :
  invocations (trace (Action.main override_world))
  = [("gitleaks",
      ["detect"; "--redact"; "-v"; "--exit-code=2"; "--report-format=sarif";
       "--report-path=results.sarif"; "--log-level=debug";
       "--log-opts=--no-merges --first-parent main^..bbb2222"])].
Proof. by vm_compute. Qed.

End PullRequestRange.

(** ** Engine invocations *)

Section Invocations.
Import Scanner Action.

Lemma invocations_app (t1 t2 : list effect) :
  invocations (t1 ++ t2) = invocations t1 ++ invocations t2.
Proof. apply omap_app. Qed.

Lemma silent_invocations (t : list effect) :
  Forall not_exec t → invocations t = [].
Proof.
  induction 1 as [|e t He _ IH]; [done|].
  destruct e; simpl in *; done.
Qed.

Lemma validateSubscription_silent (w : World) :
  every not_exec (validateSubscription w).
Proof. unfold validateSubscription. every_effect; exact I. Qed.

Lemma validateEventType_silent (eventType : string) :
  every not_exec (validateEventType eventType).
Proof. unfold validateEventType. every_effect; exact I. Qed.

Lemma loadEventData_silent (w : World) (eventPath : string) :
  every not_exec (loadEventData w eventPath).
Proof. unfold loadEventData. every_effect; exact I. Qed.

Lemma resolveGitleaksVersion_silent (w : World) (version : string) :
  every not_exec (resolveGitleaksVersion w version).
Proof. unfold resolveGitleaksVersion, Latest. every_effect; exact I. Qed.

Lemma Install_silent (w : World) (version : string) :
  every not_exec (Install w version).
Proof.
  unfold Install, tryRestoreFromCache, downloadAndInstallBinary,
    downloadBinary, extractArchive, trySaveToCache.
  every_effect; exact I.
Qed.

Lemma generateSummary_silent (w : World) (exitCode : Z)
    (eventData : EventData) (shouldGenerate : bool) :
  every not_exec (generateSummary w exitCode eventData shouldGenerate).
Proof.
  unfold generateSummary, writeSummary, writeSuccessSummary,
    writeLeaksDetectedSummary, writeErrorSummary, parseSarifResults,
    readReportJson.
  every_effect; exact I.
Qed.

Lemma handleScanResult_silent (exitCode : Z) :
  every not_exec (handleScanResult exitCode).
Proof. unfold handleScanResult. every_effect; exact I. Qed.

Lemma postPullRequestComments_silent (w : World) (owner : string)
    (repo : option string) (pullNumber exitCode : Z) :
  every not_exec (postPullRequestComments w owner repo pullNumber exitCode).
Proof.
  unfold postPullRequestComments, parseSarifFile, readReportJson,
    fetchExistingComments, postReviewComment.
  every_effect; exact I.
Qed.

(** A scan runs the engine once, on the command line built for it. *)
Lemma Scan_invocations (w : World) (shouldUploadArtifact : bool)
    (scanInfo : ScanInfo) (eventType : string) :
  invocations (trace (Scan w shouldUploadArtifact scanInfo eventType))
  = [("gitleaks", buildScanCommand scanInfo eventType)].
Proof.
  unfold Scan, uploadScanArtifact, when, call, bind, emit, ret.
  destruct (gitleaks w (env w) _) as [msg|code]; [reflexivity|].
  destruct shouldUploadArtifact; [|reflexivity].
  destruct (upload_artifact w); reflexivity.
Qed.

Lemma invocations_bind {A B} (m : M A) (f : A → M B) :
  invocations (trace (bind m f))
  = invocations (trace m)
    ++ match result m with Ret a => invocations (trace (f a)) | _ => [] end.
Proof.
  rewrite trace_bind, invocations_app. by destruct (result m).
Qed.

Lemma invocations_bind_silent {A B} (m : M A) (f : A → M B) :
  (∀ a, every not_exec (f a)) →
  invocations (trace (bind m f)) = invocations (trace m).
Proof.
  intros Hf. rewrite invocations_bind.
  destruct (result m); rewrite ?app_nil_r; try done.
  by rewrite (silent_invocations _ (Hf a)), app_nil_r.
Qed.

End Invocations.

(** ** Log-range expression *)

Section LogRange.
Import Scanner.

Lemma truthy_app_cons (c : ascii) (a b : string) :
  Js.truthy (Some (String c a +:+ b)) = true.
Proof. reflexivity. Qed.

Example range_of_scenario :
  buildScanCommand
    {| baseRef := Some "aaa1111"; headRef := Some "bbb2222";
       gitleaksPath := None |} "pull_request"
  = ["detect"; "--redact"; "-v"; "--exit-code=2"; "--report-format=sarif";
     "--report-path=results.sarif"; "--log-level=debug";
     "--log-opts=--no-merges --first-parent aaa1111^..bbb2222"].
Proof. reflexivity. Qed.

Example no_range_on_schedule :
  buildScanCommand
    {| baseRef := None; headRef := None; gitleaksPath := Some "/tmp/g" |}
    "schedule"
  = ["detect"; "--redact"; "-v"; "--exit-code=2"; "--report-format=sarif";
     "--report-path=results.sarif"; "--log-level=debug"].
Proof. reflexivity. Qed.

(** C5: a push or pull-request scan runs the engine once, on the command
    line built from the scan range.  Equal base and head give the
    single-commit expression [-1], which the engine receives as its last
    argument [--log-opts=-1] (so never an empty range); different base and
    head give the range [base^..head], passed after the two fixed git log
    flags. *)
Theorem C5_log_range (w : World) (shouldUploadArtifact : bool)
    (scanInfo : ScanInfo) (eventType : string) :
  eventType = "push" ∨ eventType = "pull_request" →
  invocations (trace (Scan w shouldUploadArtifact scanInfo eventType))
  = [("gitleaks", buildScanCommand scanInfo eventType)]
  ∧ (baseRef scanInfo = headRef scanInfo →
   buildGitLogOptions scanInfo eventType = Some "-1"
   ∧ buildScanCommand scanInfo eventType
     = ["detect"; "--redact"; "-v"; "--exit-code=2"; "--report-format=sarif";
        "--report-path=results.sarif"; "--log-level=debug"; "--log-opts=-1"])
  ∧ (baseRef scanInfo ≠ headRef scanInfo →
     buildGitLogOptions scanInfo eventType
     = Some ("--no-merges --first-parent " +:+ Js.show (baseRef scanInfo)
             +:+ "^.." +:+ Js.show (headRef scanInfo))
     ∧ buildScanCommand scanInfo eventType
       = ["detect"; "--redact"; "-v"; "--exit-code=2"; "--report-format=sarif";
          "--report-path=results.sarif"; "--log-level=debug";
          "--log-opts=" +:+ "--no-merges --first-parent "
          +:+ Js.show (baseRef scanInfo) +:+ "^.."
          +:+ Js.show (headRef scanInfo)]).
Proof.
  intros Hevent.
  assert (String.eqb eventType "push" || String.eqb eventType "pull_request"
          = true) as Hpp.
  { destruct Hevent as [-> | ->]; reflexivity. }
  split; [apply Scan_invocations|].
  unfold buildScanCommand, buildGitLogOptions. rewrite Hpp.
  split; intros Href.
  - rewrite bool_decide_eq_true_2 by done. split; reflexivity.
  - rewrite bool_decide_eq_false_2 by done. split; [reflexivity|].
    by rewrite truthy_app_cons.
Qed.

Lemma C5_log_range_witness :
  invocations
    (trace (Scan first_run_world true
                 {| baseRef := Some "bbb2222"; headRef := Some "bbb2222";
                    gitleaksPath := None |} "push"))
  = [("gitleaks",
      ["detect"; "--redact"; "-v"; "--exit-code=2"; "--report-format=sarif";
       "--report-path=results.sarif"; "--log-level=debug"; "--log-opts=-1"])]
  ∧ buildGitLogOptions
    {| baseRef := Some "bbb2222"; headRef := Some "bbb2222";
       gitleaksPath := None |} "push" = Some "-1"
  ∧ buildScanCommand
      {| baseRef := Some "bbb2222"; headRef := Some "bbb2222";
         gitleaksPath := None |} "push"
    = ["detect"; "--redact"; "-v"; "--exit-code=2"; "--report-format=sarif";
       "--report-path=results.sarif"; "--log-level=debug"; "--log-opts=-1"].
Proof.
  destruct (C5_log_range first_run_world true
              {| baseRef := Some "bbb2222"; headRef := Some "bbb2222";
                 gitleaksPath := None |} "push") as (Hrun & Hsame & _).
  - left. reflexivity.
  - split; [exact Hrun | apply Hsame; reflexivity].
Defined.

End LogRange.

(** ** Push without commits *)

Section EmptyPush.
Import Scanner Action.

Lemma buildPushScanInfo_empty (eventData : EventData)
    (baseRefOverride : option string) :
  commits eventData = None ∨ commits eventData = Some [] →
  buildPushScanInfo eventData baseRefOverride
  = ([LogInfo "No commits to scan"], Exit 0).
Proof. unfold buildPushScanInfo. by intros [-> | ->]. Qed.

Lemma performScan_empty_push (w : World) (eventData : EventData)
    (cfg : ScanConfig) :
  commits eventData = None ∨ commits eventData = Some [] →
  performScan w "push" eventData cfg
  = ([LogInfo "Event type: push"; LogInfo "No commits to scan"], Exit 0).
Proof.
  intros Hempty. unfold performScan.
  change (String.eqb "push" (PUSH EVENT_TYPES)) with true. cbv iota zeta.
  by rewrite (buildPushScanInfo_empty _ _ Hempty).
Qed.

Lemma run_empty_push_silent (w : World) (eventData : EventData) :
  getenv w "GITHUB_EVENT_NAME" = Some "push" →
  event_file w (path (getEventInfo w)) = inr eventData →
  commits eventData = None ∨ commits eventData = Some [] →
  every not_exec (main w).
Proof.
  intros Hname Hfile Hempty. unfold main.
  apply every_try_catch; [|intros; every_effect; exact I].
  unfold run.
  apply every_bind; [apply validateSubscription_silent | intros _ _].
  cbv zeta.
  apply every_bind; [every_effect; exact I | intros _ _].
  apply every_bind; [every_effect; exact I | intros _ _].
  apply every_bind; [apply validateEventType_silent | intros _ _].
  apply every_bind; [apply loadEventData_silent | intros ev Hev].
  apply every_bind; [apply resolveGitleaksVersion_silent | intros version _].
  apply every_bind; [every_effect; exact I | intros _ _].
  apply every_bind; [apply Install_silent | intros installed _].
  assert (type (getEventInfo w) = "push") as Htype.
  { unfold getEventInfo. simpl. by rewrite Hname. }
  assert (ev = eventData) as ->.
  { unfold loadEventData in Hev. rewrite Hfile in Hev. by injection Hev. }
  rewrite Htype.
  change (normalizeScheduleEvent w eventData "push") with eventData.
  rewrite (performScan_empty_push _ _ _ Hempty).
  apply every_bind; [by repeat constructor | intros code Hcode].
  discriminate Hcode.
Qed.

(** C4: a push whose commit list is empty or absent ends the scan stage at
    once: only the two log lines are produced and the process exits with
    the success status 0.  The whole run of such a push never runs the
    engine, wherever it stops. *)
Theorem C4_empty_push (w : World) (eventData : EventData) (cfg : ScanConfig) :
  commits eventData = None ∨ commits eventData = Some [] →
  performScan w "push" eventData cfg
  = ([LogInfo "Event type: push"; LogInfo "No commits to scan"], Exit 0)
  ∧ (getenv w "GITHUB_EVENT_NAME" = Some "push" →
     event_file w (path (getEventInfo w)) = inr eventData →
     invocations (trace (main w)) = []).
Proof.
  intros Hempty. split.
  - by apply performScan_empty_push.
  - intros Hname Hfile. apply silent_invocations.
    by apply (run_empty_push_silent w eventData).
Qed.

Lemma C4_empty_push_witness :
  let w := sample_world push_env "linux" empty_push_event 0 ReportMissing
                        [] [] in
  let cfg := {| config := parseEnvironmentConfig w;
                eventData := empty_push_event;
                gitleaksPath := "/tmp/gitleaks-8.24.3" |} in
  performScan w "push" empty_push_event cfg
  = ([LogInfo "Event type: push"; LogInfo "No commits to scan"], Exit 0)
  ∧ invocations (trace (main w)) = [].
Proof.
  intros w cfg.
  destruct (C4_empty_push w empty_push_event cfg) as [Hscan Hrun].
  - right. reflexivity.
  - split; [exact Hscan | apply Hrun; reflexivity].
Defined.

Example empty_push_exits_clean :
  let w := sample_world push_env "linux" empty_push_event 0 ReportMissing
                        [] [] in
  result (main w) = Exit 0 ∧ exit_status (main w) = 0%Z.
Proof. by vm_compute. Qed.

End EmptyPush.

(** ** Two worlds that differ in [GITLEAKS_CONFIG] and in the engine *)

Section SameUpToEngine.
Import Scanner Action.

Variables w1 w0 : World.

Hypothesis same_env :
  ∀ key, key ≠ "GITLEAKS_CONFIG" → getenv w1 key = getenv w0 key.
Hypothesis same_platform : platform w1 = platform w0.
Hypothesis same_arch : arch w1 = arch w0.
Hypothesis same_tmpdir : tmpdir w1 = tmpdir w0.
Hypothesis same_repo_private : repo_private w1 = repo_private w0.
Hypothesis same_subscription : subscription_api w1 = subscription_api w0.
Hypothesis same_event_file : event_file w1 = event_file w0.
Hypothesis same_latest_release : latest_release w1 = latest_release w0.
Hypothesis same_cache_restore : cache_restore w1 = cache_restore w0.
Hypothesis same_cache_save : cache_save w1 = cache_save w0.
Hypothesis same_download : download_tool w1 = download_tool w0.
Hypothesis same_extract_zip : extract_zip w1 = extract_zip w0.
Hypothesis same_extract_tar : extract_tar w1 = extract_tar w0.
Hypothesis same_pull_commits : pull_commits w1 = pull_commits w0.

Ltac same_env := rewrite ?same_env by discriminate.

Lemma parseEnvironmentConfig_same :
  parseEnvironmentConfig w1 = parseEnvironmentConfig w0.
Proof. unfold parseEnvironmentConfig, parseBooleanEnv. by same_env. Qed.

Lemma getEventInfo_same : getEventInfo w1 = getEventInfo w0.
Proof. unfold getEventInfo. by same_env. Qed.

Lemma validateSubscription_same :
  validateSubscription w1 = validateSubscription w0.
Proof.
  unfold validateSubscription. same_env.
  by rewrite same_repo_private, same_subscription.
Qed.

Lemma loadEventData_same (eventPath : string) :
  loadEventData w1 eventPath = loadEventData w0 eventPath.
Proof. unfold loadEventData. by rewrite same_event_file. Qed.

Lemma normalizeScheduleEvent_same (eventData : EventData) (eventType : string) :
  normalizeScheduleEvent w1 eventData eventType
  = normalizeScheduleEvent w0 eventData eventType.
Proof. unfold normalizeScheduleEvent. by same_env. Qed.

Lemma resolveGitleaksVersion_same (version : string) :
  resolveGitleaksVersion w1 version = resolveGitleaksVersion w0 version.
Proof.
  unfold resolveGitleaksVersion, Latest. by rewrite same_latest_release.
Qed.

Lemma Install_same (version : string) :
  Install w1 version = Install w0 version.
Proof.
  unfold Install, getInstallPath, tryRestoreFromCache,
    downloadAndInstallBinary, downloadBinary, extractArchive, trySaveToCache.
  by rewrite same_platform, same_arch, same_tmpdir, same_cache_restore,
    same_cache_save, same_download, same_extract_zip, same_extract_tar.
Qed.

Lemma validateGitHubToken_same :
  validateGitHubToken w1 = validateGitHubToken w0.
Proof. unfold validateGitHubToken. by same_env. Qed.

Lemma pullRequestScanInfo_same (owner : string) (repo : option string)
    (pullNumber : Z) (eventJSON : EventData) :
  pullRequestScanInfo w1 owner repo pullNumber eventJSON
  = pullRequestScanInfo w0 owner repo pullNumber eventJSON.
Proof.
  unfold pullRequestScanInfo, fetchPullRequestCommits. same_env.
  by rewrite same_pull_commits.
Qed.

Lemma invocations_bind_cong {A B} (m1 m0 : M A) (f1 f0 : A → M B) :
  m1 = m0 →
  (∀ a, invocations (trace (f1 a)) = invocations (trace (f0 a))) →
  invocations (trace (bind m1 f1)) = invocations (trace (bind m0 f0)).
Proof.
  intros -> Hf. rewrite !invocations_bind.
  destruct (result m0); by rewrite ?Hf.
Qed.

Lemma invocations_bind_tail {A B} (m1 m0 : M A) (f1 f0 : A → M B) :
  invocations (trace m1) = invocations (trace m0) →
  (∀ a, every not_exec (f1 a)) →
  (∀ a, every not_exec (f0 a)) →
  invocations (trace (bind m1 f1)) = invocations (trace (bind m0 f0)).
Proof. intros Hm H1 H0. by rewrite !invocations_bind_silent. Qed.

Lemma after_scan_silent (w : World) (owner : string) (repo : option string)
    (pullNumber exitCode : Z) :
  every not_exec
    (bind (when (shouldPostComments w)
             (postPullRequestComments w owner repo pullNumber exitCode))
          (λ _, ret exitCode)).
Proof.
  apply every_bind; [|intros; apply every_ret].
  apply every_when, postPullRequestComments_silent.
Qed.

Lemma ScanPullRequest_same (shouldUploadArtifact : bool)
    (eventJSON : EventData) (eventType : string) :
  invocations
    (trace (ScanPullRequest w1 shouldUploadArtifact eventJSON eventType))
  = invocations
      (trace (ScanPullRequest w0 shouldUploadArtifact eventJSON eventType)).
Proof.
  unfold ScanPullRequest.
  apply invocations_bind_cong; [apply validateGitHubToken_same | intros _].
  cbv zeta.
  apply invocations_bind_cong; [apply pullRequestScanInfo_same | intros si].
  apply invocations_bind_tail.
  - by rewrite !Scan_invocations.
  - intros code. apply after_scan_silent.
  - intros code. apply after_scan_silent.
Qed.

Lemma executeScan_same (scanType : string) (scanParams : ScanInfo)
    (cfg : ScanConfig) :
  invocations (trace (executeScan w1 scanType scanParams cfg))
  = invocations (trace (executeScan w0 scanType scanParams cfg)).
Proof.
  unfold executeScan.
  destruct (_ || _); [by rewrite !Scan_invocations|].
  destruct (String.eqb _ _); [apply ScanPullRequest_same | done].
Qed.

Lemma performScan_same (eventType : string) (eventData : EventData)
    (cfg : ScanConfig) :
  invocations (trace (performScan w1 eventType eventData cfg))
  = invocations (trace (performScan w0 eventType eventData cfg)).
Proof.
  unfold performScan.
  apply invocations_bind_cong; [done | intros _]. cbv zeta.
  destruct (String.eqb eventType (PUSH EVENT_TYPES)).
  { apply invocations_bind_cong; [done | intros si].
    apply executeScan_same. }
  destruct (String.eqb eventType (PULL_REQUEST EVENT_TYPES));
    [apply executeScan_same|].
  destruct (_ || _); [apply executeScan_same | done].
Qed.

Lemma run_same :
  invocations (trace (run w1)) = invocations (trace (run w0)).
Proof.
  unfold run.
  apply invocations_bind_cong; [apply validateSubscription_same | intros _].
  cbv zeta. rewrite parseEnvironmentConfig_same, getEventInfo_same.
  apply invocations_bind_cong; [done | intros _].
  apply invocations_bind_cong; [done | intros _].
  apply invocations_bind_cong; [done | intros _].
  apply invocations_bind_cong; [apply loadEventData_same | intros ev].
  rewrite normalizeScheduleEvent_same.
  apply invocations_bind_cong;
    [apply resolveGitleaksVersion_same | intros version].
  apply invocations_bind_cong; [done | intros _].
  apply invocations_bind_cong; [apply Install_same | intros installed].
  apply invocations_bind_tail; [apply performScan_same | |];
    intros code; (apply every_bind;
      [apply generateSummary_silent | intros; apply handleScanResult_silent]).
Qed.

Lemma main_same :
  invocations (trace (main w1)) = invocations (trace (main w0)).
Proof.
  unfold main. rewrite !trace_try_catch, !invocations_app, run_same.
  f_equal. by destruct (result (run w1)), (result (run w0)).
Qed.

End SameUpToEngine.

(** ** Runs that differ in the custom configuration only *)

Section SameAnswers.
Import Scanner Action.

Variables w1 w0 : World.

Hypothesis same_env :
  ∀ key, key ≠ "GITLEAKS_CONFIG" → getenv w1 key = getenv w0 key.
Hypothesis same_platform : platform w1 = platform w0.
Hypothesis same_arch : arch w1 = arch w0.
Hypothesis same_tmpdir : tmpdir w1 = tmpdir w0.
Hypothesis same_cwd : cwd w1 = cwd w0.
Hypothesis same_repo_private : repo_private w1 = repo_private w0.
Hypothesis same_subscription : subscription_api w1 = subscription_api w0.
Hypothesis same_event_file : event_file w1 = event_file w0.
Hypothesis same_latest_release : latest_release w1 = latest_release w0.
Hypothesis same_cache_restore : cache_restore w1 = cache_restore w0.
Hypothesis same_cache_save : cache_save w1 = cache_save w0.
Hypothesis same_download : download_tool w1 = download_tool w0.
Hypothesis same_extract_zip : extract_zip w1 = extract_zip w0.
Hypothesis same_extract_tar : extract_tar w1 = extract_tar w0.
Hypothesis same_upload : upload_artifact w1 = upload_artifact w0.
Hypothesis same_pull_commits : pull_commits w1 = pull_commits w0.
Hypothesis same_pull_comments : pull_comments w1 = pull_comments w0.
Hypothesis same_create : create_review_comment w1 = create_review_comment w0.
Hypothesis same_report : report w1 = report w0.

(** The engine gives the same answer in both worlds, each time with the
    environment of its own world. *)
Hypothesis same_answers :
  ∀ args, gitleaks w1 (env w1) args = gitleaks w0 (env w0) args.

Lemma bind_cong {A B} (m1 m0 : M A) (f1 f0 : A → M B) :
  m1 = m0 → (∀ a, f1 a = f0 a) → bind m1 f1 = bind m0 f0.
Proof.
  intros -> Hf. destruct m0 as [t [a|status|msg]]; simpl; by rewrite ?Hf.
Qed.

Lemma Scan_equal (shouldUploadArtifact : bool) (scanInfo : ScanInfo)
    (eventType : string) :
  Scan w1 shouldUploadArtifact scanInfo eventType
  = Scan w0 shouldUploadArtifact scanInfo eventType.
Proof.
  unfold Scan, uploadScanArtifact.
  by rewrite same_answers, same_cwd, same_upload.
Qed.

Lemma parseSarifFile_equal : parseSarifFile w1 = parseSarifFile w0.
Proof.
  unfold parseSarifFile, existsSync, readReportJson. by rewrite same_report.
Qed.

Lemma postPullRequestComments_equal (owner : string) (repo : option string)
    (pullNumber exitCode : Z) :
  postPullRequestComments w1 owner repo pullNumber exitCode
  = postPullRequestComments w0 owner repo pullNumber exitCode.
Proof.
  unfold postPullRequestComments, fetchExistingComments, buildReviewComment,
    postReviewComment.
  rewrite parseSarifFile_equal, same_pull_comments, same_create.
  by rewrite same_env by discriminate.
Qed.

Lemma ScanPullRequest_equal (shouldUploadArtifact : bool)
    (eventJSON : EventData) (eventType : string) :
  ScanPullRequest w1 shouldUploadArtifact eventJSON eventType
  = ScanPullRequest w0 shouldUploadArtifact eventJSON eventType.
Proof.
  unfold ScanPullRequest. cbv zeta.
  apply bind_cong; [by apply validateGitHubToken_same | intros _].
  apply bind_cong; [by apply pullRequestScanInfo_same | intros scanInfo].
  apply bind_cong; [apply Scan_equal | intros exitCode].
  unfold shouldPostComments. rewrite same_env by discriminate.
  by rewrite postPullRequestComments_equal.
Qed.

Lemma executeScan_equal (scanType : string) (scanParams : ScanInfo)
    (cfg : ScanConfig) :
  executeScan w1 scanType scanParams cfg
  = executeScan w0 scanType scanParams cfg.
Proof.
  unfold executeScan. by rewrite Scan_equal, ScanPullRequest_equal.
Qed.

Lemma performScan_equal (eventType : string) (eventData : EventData)
    (cfg : ScanConfig) :
  performScan w1 eventType eventData cfg
  = performScan w0 eventType eventData cfg.
Proof.
  unfold performScan. cbv zeta.
  apply bind_cong; [done | intros _].
  destruct (String.eqb eventType (PUSH EVENT_TYPES)).
  { apply bind_cong; [done | intros scanInfo]. apply executeScan_equal. }
  by rewrite !executeScan_equal.
Qed.

Lemma generateSummary_equal (exitCode : Z) (eventData : EventData)
    (shouldGenerate : bool) :
  generateSummary w1 exitCode eventData shouldGenerate
  = generateSummary w0 exitCode eventData shouldGenerate.
Proof.
  unfold generateSummary, writeSummary, writeLeaksDetectedSummary,
    parseSarifResults, existsSync, readReportJson.
  by rewrite same_report.
Qed.

Lemma run_equal : run w1 = run w0.
Proof.
  unfold run. cbv zeta.
  rewrite (parseEnvironmentConfig_same w1 w0 same_env),
    (getEventInfo_same w1 w0 same_env).
  apply bind_cong; [by apply validateSubscription_same | intros _].
  apply bind_cong; [done | intros _].
  apply bind_cong; [done | intros _].
  apply bind_cong; [done | intros _].
  apply bind_cong; [by apply loadEventData_same | intros eventData].
  rewrite (normalizeScheduleEvent_same w1 w0 same_env).
  apply bind_cong; [by apply resolveGitleaksVersion_same | intros version].
  apply bind_cong; [done | intros _].
  apply bind_cong; [by apply Install_same | intros installed].
  apply bind_cong; [apply performScan_equal | intros exitCode].
  by rewrite generateSummary_equal.
Qed.

Lemma main_equal : main w1 = main w0.
Proof. unfold main. by rewrite run_equal. Qed.

End SameAnswers.

(** ** Custom engine configuration *)

Section CustomConfig.
Import Scanner Action.

Lemma getenv_config_other (w : World) (value : string)
    (engine : gmap string string → list string → string + Z)
    (rep : ReportFile) (key : string) :
  key ≠ "GITLEAKS_CONFIG" →
  getenv (with_engine engine rep (setenv "GITLEAKS_CONFIG" value w)) key
  = getenv (unsetenv "GITLEAKS_CONFIG" w) key.
Proof.
  intros Hkey. unfold getenv. simpl.
  by rewrite lookup_insert_ne, lookup_delete_ne.
Qed.

Lemma config_never_read (w : World) (value : string)
    (engine : gmap string string → list string → string + Z)
    (rep : ReportFile) :
  parseEnvironmentConfig
    (with_engine engine rep (setenv "GITLEAKS_CONFIG" value w))
  = parseEnvironmentConfig (unsetenv "GITLEAKS_CONFIG" w)
  ∧ invocations
      (trace (main (with_engine engine rep
                      (setenv "GITLEAKS_CONFIG" value w))))
    = invocations (trace (main (unsetenv "GITLEAKS_CONFIG" w))).
Proof.
  split.
  - apply parseEnvironmentConfig_same. apply getenv_config_other.
  - apply main_same; try reflexivity. apply getenv_config_other.
Qed.

Lemma with_engine_id (w : World) :
  with_engine (gitleaks w) (report w) w = w.
Proof. by destruct w. Qed.

Lemma getenv_set_unset (w : World) (value key : string) :
  key ≠ "GITLEAKS_CONFIG" →
  getenv (setenv "GITLEAKS_CONFIG" value w) key
  = getenv (unsetenv "GITLEAKS_CONFIG" w) key.
Proof.
  intros Hkey. unfold getenv. simpl.
  by rewrite lookup_insert_ne, lookup_delete_ne.
Qed.

Lemma config_only_through_engine (w : World) (value : string) :
  (∀ args,
     gitleaks w (<["GITLEAKS_CONFIG" := value]> (env w)) args
     = gitleaks w (delete "GITLEAKS_CONFIG" (env w)) args) →
  main (setenv "GITLEAKS_CONFIG" value w)
  = main (unsetenv "GITLEAKS_CONFIG" w).
Proof.
  intros Hengine. apply main_equal; try reflexivity.
  - apply getenv_set_unset.
  - exact Hengine.
Qed.

(** C8, as stated, fails: there is no world and no value of
    [GITLEAKS_CONFIG] for which the run differs from the run without the
    variable while the path is read into the parsed configuration and
    changes the engine command lines.  The parsed configuration and the
    command lines never differ, so the mechanism the claim names is
    absent, whatever else differs. *)
Lemma C8_config_path_has_no_reader :
  ¬ ∃ (w : World) (value : string),
      main (setenv "GITLEAKS_CONFIG" value w)
      ≠ main (unsetenv "GITLEAKS_CONFIG" w)
      ∧ parseEnvironmentConfig (setenv "GITLEAKS_CONFIG" value w)
        ≠ parseEnvironmentConfig (unsetenv "GITLEAKS_CONFIG" w)
      ∧ invocations (trace (main (setenv "GITLEAKS_CONFIG" value w)))
        ≠ invocations (trace (main (unsetenv "GITLEAKS_CONFIG" w))).
Proof.
  intros (w & value & _ & Hconfig & _).
  destruct (config_never_read w value
              (gitleaks (setenv "GITLEAKS_CONFIG" value w))
              (report (setenv "GITLEAKS_CONFIG" value w))) as [Hcfg _].
  rewrite with_engine_id in Hcfg. by apply Hconfig.
Qed.

(** C8 (amended): a custom-configuration path changes the run, but only
    through the engine.  For some world and value of [GITLEAKS_CONFIG] the
    run ends with another exit status than the run without the variable.
    The action itself reads no such path: for every world and value, and
    whatever the engine then answers, the parsed configuration and the
    engine command lines are those of the run without the variable.  And
    the engine is the only reader: when it answers the same with the
    variable as without it in the environment it inherits, the two runs
    are the same, effect by effect and in their outcome. *)
Theorem C8_custom_config_by_inheritance :
  (∃ (w : World) (value : string),
     exit_status (main (setenv "GITLEAKS_CONFIG" value w))
     ≠ exit_status (main (unsetenv "GITLEAKS_CONFIG" w)))
  ∧ (∀ (w : World) (value : string)
       (engine : gmap string string → list string → string + Z)
       (rep : ReportFile),
       parseEnvironmentConfig
         (with_engine engine rep (setenv "GITLEAKS_CONFIG" value w))
       = parseEnvironmentConfig (unsetenv "GITLEAKS_CONFIG" w)
       ∧ invocations
           (trace (main (with_engine engine rep
                           (setenv "GITLEAKS_CONFIG" value w))))
         = invocations (trace (main (unsetenv "GITLEAKS_CONFIG" w))))
  ∧ (∀ (w : World) (value : string),
       (∀ args,
          gitleaks w (<["GITLEAKS_CONFIG" := value]> (env w)) args
          = gitleaks w (delete "GITLEAKS_CONFIG" (env w)) args) →
       main (setenv "GITLEAKS_CONFIG" value w)
       = main (unsetenv "GITLEAKS_CONFIG" w)).
Proof.
  split; [|split].
  - exists (with_engine config_sensitive_engine ReportMissing
              (sample_world push_env "linux" single_push_event 0
                            ReportMissing [] [])), "custom.toml".
    by vm_compute.
  - apply config_never_read.
  - apply config_only_through_engine.
Qed.

(** An engine that ignores its environment: the run with a custom
    configuration is the run without. *)
Lemma C8_custom_config_by_inheritance_witness :
  (∀ args,
     gitleaks deaf_engine_world
       (<["GITLEAKS_CONFIG" := "custom.toml"]> (env deaf_engine_world)) args
     = gitleaks deaf_engine_world
         (delete "GITLEAKS_CONFIG" (env deaf_engine_world)) args)
  ∧ main (setenv "GITLEAKS_CONFIG" "custom.toml" deaf_engine_world)
    = main (unsetenv "GITLEAKS_CONFIG" deaf_engine_world).
Proof.
  split; [reflexivity|].
  apply (proj2 (proj2 C8_custom_config_by_inheritance)
           deaf_engine_world "custom.toml").
  reflexivity.
Defined.

(** The variable still reaches the engine, which inherits the process
    environment: with an engine that reads it there, the same command line
    ends in another exit status. *)
Example config_reaches_engine_by_inheritance :
  let w := with_engine config_sensitive_engine ReportMissing
             (sample_world push_env "linux" single_push_event 0
                           ReportMissing [] []) in
  invocations (trace (main (setenv "GITLEAKS_CONFIG" "custom.toml" w)))
  = invocations (trace (main (unsetenv "GITLEAKS_CONFIG" w)))
  ∧ exit_status (main (setenv "GITLEAKS_CONFIG" "custom.toml" w)) = 0%Z
  ∧ exit_status (main (unsetenv "GITLEAKS_CONFIG" w)) = 1%Z.
Proof. by vm_compute. Qed.

End CustomConfig.

(** ** Reports without details *)

Section DegradedReport.
Import Scanner Action.

Lemma no_details_cases (f : ReportFile) :
  no_details f →
  f = ReportMissing
  ∨ (∃ msg, f = ReportUnreadable msg)
  ∨ f = ReportJson {| runs := None |}
  ∨ f = ReportJson {| runs := Some [] |}
  ∨ (∃ rest, f = ReportJson {| runs := Some ({| results := None |} :: rest) |})
  ∨ (∃ rest,
       f = ReportJson {| runs := Some ({| results := Some [] |} :: rest) |}).
Proof.
  destruct f as [|msg|[[[|[res] rest]|]]]; simpl; intros Hno.
  - by left.
  - right; left. by exists msg.
  - do 3 right. by left.
  - destruct Hno as [-> | ->].
    + do 4 right. left. by exists rest.
    + do 5 right. by exists rest.
  - do 2 right. by left.
Qed.

Lemma summary_without_details (w : World) (repoUrl : string) :
  no_details (report w) →
  result (writeLeaksDetectedSummary w repoUrl) = Ret tt
  ∧ summaries (trace (writeLeaksDetectedSummary w repoUrl))
    = [[Heading NO_DETAILS_HEADING]].
Proof.
  intros Hno. apply no_details_cases in Hno.
  unfold writeLeaksDetectedSummary, parseSarifResults, existsSync,
    readReportJson.
  destruct Hno as [Hr|[[msg Hr]|[Hr|[Hr|[[rest Hr]|[rest Hr]]]]]];
    rewrite Hr; split; reflexivity.
Qed.

Lemma comments_without_details (w : World) (owner : string)
    (repo : option string) (pullNumber : Z) :
  no_details (report w) →
  result (postPullRequestComments w owner repo pullNumber 2) = Ret tt
  ∧ submitted (trace (postPullRequestComments w owner repo pullNumber 2)) = []
  ∧ every log_only (postPullRequestComments w owner repo pullNumber 2).
Proof.
  intros Hno. apply no_details_cases in Hno.
  unfold every, postPullRequestComments, parseSarifFile, existsSync,
    readReportJson.
  destruct Hno as [Hr|[[msg Hr]|[Hr|[Hr|[[rest Hr]|[rest Hr]]]]]];
    rewrite Hr; simpl; repeat split; repeat constructor.
Qed.

(** C9: when the report is missing, unreadable, without [runs[0].results]
    or without findings, a run whose outcome is leaks found does not fail
    on it.  The summary is written with the generic heading only; the
    comment reporter returns without listing or creating any comment; the
    run then ends through the exit handler with the findings status 1.  A
    report whose first run has no [results] is read as no findings by both
    parsers, without any error. *)
Theorem C9_report_without_details (w : World) (owner : string)
    (repo : option string) (pullNumber : Z) (eventData : EventData) :
  no_details (report w) →
  (result (writeLeaksDetectedSummary w (html_url (repository eventData)))
   = Ret tt
   ∧ summaries
       (trace (writeLeaksDetectedSummary w (html_url (repository eventData))))
     = [[Heading NO_DETAILS_HEADING]])
  ∧ (result (postPullRequestComments w owner repo pullNumber 2) = Ret tt
     ∧ submitted (trace (postPullRequestComments w owner repo pullNumber 2))
       = []
     ∧ every log_only (postPullRequestComments w owner repo pullNumber 2))
  ∧ result (bind (generateSummary w 2 eventData true)
                 (λ _, handleScanResult 2)) = Exit 1
  ∧ (∀ rest,
       report w = ReportJson {| runs := Some ({| results := None |} :: rest) |} →
       parseSarifFile w = ([], Ret None)
       ∧ result (parseSarifResults w SARIF_FILE_PATH) = Ret None).
Proof.
  intros Hno. split; [by apply summary_without_details|].
  split; [by apply comments_without_details|]. split.
  - rewrite result_bind. unfold generateSummary, writeSummary. simpl.
    by destruct (summary_without_details w (html_url (repository eventData))
                   Hno) as [-> _].
  - intros rest Hr.
    unfold parseSarifFile, parseSarifResults, existsSync, readReportJson.
    rewrite Hr. split; reflexivity.
Qed.

Lemma C9_report_without_details_witness :
  let w := sample_world pull_request_env "linux" pull_request_event 2
             (ReportUnreadable "Unexpected end of JSON input") [] [] in
  summaries
    (trace (writeLeaksDetectedSummary w
              (html_url (repository pull_request_event))))
  = [[Heading NO_DETAILS_HEADING]]
  ∧ submitted (trace (postPullRequestComments w "acme" (Some "app") 7 2)) = []
  ∧ result (bind (generateSummary w 2 pull_request_event true)
                 (λ _, handleScanResult 2)) = Exit 1.
Proof.
  intros w.
  destruct (C9_report_without_details w "acme" (Some "app") 7
              pull_request_event) as ([_ Hsum] & (_ & Hsub & _) & Hexit & _).
  - exact I.
  - split; [exact Hsum | split; [exact Hsub | exact Hexit]].
Defined.

Example run_with_missing_report :
  let w := sample_world pull_request_env "linux" pull_request_event 2
             ReportMissing [] [] in
  summaries (trace (main w)) = [[Heading NO_DETAILS_HEADING]]
  ∧ submitted (trace (main w)) = []
  ∧ result (main w) = Exit 1.
Proof. by vm_compute. Qed.

End DegradedReport.

(** ** Review comments *)

Section ReviewComments.
Import Scanner.

Lemma isCommentDuplicate_spec (e : ExistingComment) (c : PRComment) :
  isCommentDuplicate e c = true
  ↔ ec_body e = pc_body c ∧ ec_path e = pc_path c
    ∧ original_line e = Some (line c).
Proof.
  unfold isCommentDuplicate.
  rewrite !andb_true_iff, !String.eqb_eq, bool_decide_eq_true. tauto.
Qed.

Lemma commentAlreadyExists_spec (existing : list ExistingComment)
    (c : PRComment) :
  commentAlreadyExists existing c = true
  ↔ ∃ e, e ∈ existing ∧ ec_body e = pc_body c ∧ ec_path e = pc_path c
         ∧ original_line e = Some (line c).
Proof.
  unfold commentAlreadyExists. rewrite existsb_exists.
  split; intros (e & Hin & Hdup); exists e.
  - by rewrite list_elem_of_In, <- isCommentDuplicate_spec.
  - by rewrite <- list_elem_of_In, isCommentDuplicate_spec.
Qed.

Lemma parseSarifFile_returns (w : World) :
  ∃ t found, parseSarifFile w = (t, Ret found) ∧ submitted t = [].
Proof.
  unfold parseSarifFile, existsSync, readReportJson.
  destruct (report w) as [|msg|[[[|run0 rest]|]]]; simpl; eauto.
Qed.

Lemma postReviewComment_submitted (w : World) (c : PRComment) :
  submitted (trace (postReviewComment w c)) = [c]
  ∧ result (postReviewComment w c) = Ret tt.
Proof.
  unfold postReviewComment, call.
  destruct (create_review_comment w c) as [msg|[]]; by simpl.
Qed.

Lemma submitted_app (t1 t2 : list effect) :
  submitted (t1 ++ t2) = submitted t1 ++ submitted t2.
Proof. apply omap_app. Qed.

(** The loop over the findings submits, in order, the comments that no
    existing comment matches; a failed submission does not stop it. *)
Lemma loop_submitted (w : World) (existing : list ExistingComment)
    (comment_of : SarifResult → PRComment) (secrets : list SarifResult) :
  submitted
    (trace (for_of secrets (λ secret,
              when (negb (commentAlreadyExists existing (comment_of secret)))
                   (postReviewComment w (comment_of secret)))))
  = List.filter (λ c, negb (commentAlreadyExists existing c))
                (map comment_of secrets).
Proof.
  induction secrets as [|secret rest IH]; [reflexivity|].
  simpl for_of. rewrite trace_bind, submitted_app. simpl map. simpl List.filter.
  destruct (postReviewComment_submitted w (comment_of secret)) as [Hsub Hres].
  destruct (commentAlreadyExists existing (comment_of secret)); simpl.
  - exact IH.
  - rewrite Hsub, Hres, IH. reflexivity.
Qed.

Lemma postPullRequestComments_submitted (w : World) (owner : string)
    (repo : option string) (pullNumber : Z)
    (existing : list ExistingComment) :
  pull_comments w = inr existing →
  submitted (trace (postPullRequestComments w owner repo pullNumber 2))
  = List.filter (λ c, negb (commentAlreadyExists existing c))
      (map (λ secret, buildReviewComment w secret owner repo pullNumber)
           (reported w)).
Proof.
  intros Hex. unfold postPullRequestComments, reported.
  destruct (parseSarifFile_returns w) as (t & found & -> & Ht).
  change (negb (2 =? LEAKS_DETECTED EXIT_CODES)%Z) with false. cbv iota.
  rewrite trace_bind, submitted_app. simpl trace at 1. simpl result.
  rewrite Ht. simpl app.
  destruct found as [[|secret rest]|]; [reflexivity| |reflexivity].
  unfold fetchExistingComments, call. rewrite Hex, trace_bind, submitted_app.
  simpl trace at 1. simpl result. simpl submitted at 1. simpl app.
  exact (loop_submitted w existing
           (λ secret, buildReviewComment w secret owner repo pullNumber)
           (secret :: rest)).
Qed.

Lemma reported_same_report (w1 w2 : World) :
  report w2 = report w1 → reported w2 = reported w1.
Proof.
  intros Hr. unfold reported, parseSarifFile, existsSync, readReportJson.
  by rewrite Hr.
Qed.

Lemma buildReviewComment_same_list (w1 w2 : World) (secret : SarifResult)
    (owner : string) (repo : option string) (pullNumber : Z) :
  getenv w2 "GITLEAKS_NOTIFY_USER_LIST" = getenv w1 "GITLEAKS_NOTIFY_USER_LIST" →
  buildReviewComment w2 secret owner repo pullNumber
  = buildReviewComment w1 secret owner repo pullNumber.
Proof. intros Hl. unfold buildReviewComment. by rewrite Hl. Qed.

Lemma filter_none {A} (f : A → bool) (l : list A) :
  (∀ x, x ∈ l → f x = false) → List.filter f l = [].
Proof.
  induction l as [|x l IH]; intros Hall; [reflexivity|]. simpl.
  rewrite (Hall x) by constructor. apply IH. intros y Hy.
  apply Hall. by constructor.
Qed.

End ReviewComments.

Section Idempotence.
Import Scanner.

(** C2: comment posting is idempotent.  Take a first run of the comment
    reporter on a leaks outcome, and a second run on the same report and
    the same mention list, whose listed comments contain those of the first
    run and every comment the first run submitted (same body and path, the
    line as [original_line]).  Then, in the first run, the comment of a
    finding is submitted exactly when no listed comment has its body, path
    and line; and the second run submits nothing. *)
Theorem C2_posting_idempotent (w1 w2 : World) (owner : string)
    (repo : option string) (pullNumber : Z)
    (existing1 existing2 : list ExistingComment) :
  report w2 = report w1 →
  getenv w2 "GITLEAKS_NOTIFY_USER_LIST" = getenv w1 "GITLEAKS_NOTIFY_USER_LIST" →
  pull_comments w1 = inr existing1 →
  pull_comments w2 = inr existing2 →
  existing1 ⊆ existing2 →
  (∀ c,
     c ∈ submitted (trace (postPullRequestComments w1 owner repo pullNumber 2)) →
     as_existing c ∈ existing2) →
  (∀ secret,
     secret ∈ reported w1 →
     buildReviewComment w1 secret owner repo pullNumber
       ∈ submitted (trace (postPullRequestComments w1 owner repo pullNumber 2))
     ↔ ¬ ∃ e, e ∈ existing1
              ∧ ec_body e
                = pc_body (buildReviewComment w1 secret owner repo pullNumber)
              ∧ ec_path e
                = pc_path (buildReviewComment w1 secret owner repo pullNumber)
              ∧ original_line e
                = Some (line (buildReviewComment w1 secret owner repo
                                                 pullNumber)))
  ∧ submitted (trace (postPullRequestComments w2 owner repo pullNumber 2)) = [].
Proof.
  intros Hreport Hlist Hex1 Hex2 Hsub Hposted.
  rewrite (postPullRequestComments_submitted w1 owner repo pullNumber
             existing1 Hex1) in Hposted |- *.
  rewrite (postPullRequestComments_submitted w2 owner repo pullNumber
             existing2 Hex2).
  split.
  - intros secret Hin.
    rewrite list_elem_of_In, filter_In, negb_true_iff,
      <- commentAlreadyExists_spec.
    split.
    + intros [_ Hnone]. by rewrite Hnone.
    + intros Hnone. split.
      * apply (in_map (λ s, buildReviewComment w1 s owner repo pullNumber)).
        by apply list_elem_of_In.
      * by destruct (commentAlreadyExists existing1 _).
  - apply filter_none. intros c Hc. apply negb_false_iff.
    apply list_elem_of_In, in_map_iff in Hc as (secret & <- & Hin).
    rewrite (reported_same_report w1 w2 Hreport) in Hin.
    rewrite (buildReviewComment_same_list w1 w2 _ _ _ _ Hlist).
    set (c := buildReviewComment w1 secret owner repo pullNumber).
    destruct (commentAlreadyExists existing1 c) eqn:Hold.
    + apply commentAlreadyExists_spec in Hold as (e & He & Hmatch).
      apply commentAlreadyExists_spec. exists e. split; [by apply Hsub|done].
    + apply commentAlreadyExists_spec. exists (as_existing c).
      split; [|done]. apply Hposted.
      rewrite list_elem_of_In, filter_In, Hold. split; [|done].
      by apply (in_map (λ s, buildReviewComment w1 s owner repo pullNumber)).
Qed.

Lemma C2_posting_idempotent_witness :
  submitted
    (trace (postPullRequestComments first_run_world "acme" (Some "app") 7 2))
  = [first_run_comment]
  ∧ submitted
      (trace (postPullRequestComments second_run_world "acme" (Some "app")
                                      7 2))
    = [].
Proof.
  split; [reflexivity|].
  destruct (C2_posting_idempotent first_run_world second_run_world
              "acme" (Some "app") 7 [] [as_existing first_run_comment])
    as [_ Hsecond].
  - reflexivity.
  - reflexivity.
  - reflexivity.
  - reflexivity.
  - intros e He. inversion He.
  - intros c Hc.
    change (c ∈ [first_run_comment]) in Hc.
    apply list_elem_of_singleton in Hc as ->. by left.
  - exact Hsecond.
Defined.

(** The scenarios of a pull request with base [aaa1111], head [bbb2222]
    and one finding: the first run comments on [config.yml] line 12 with
    the fingerprint in the body and exits with the findings status; the
    second run posts nothing. *)
Example scenario_first_run :
  invocations (trace (Action.main first_run_world))
  = [("gitleaks",
      ["detect"; "--redact"; "-v"; "--exit-code=2"; "--report-format=sarif";
       "--report-path=results.sarif"; "--log-level=debug";
       "--log-opts=--no-merges --first-parent aaa1111^..bbb2222"])]
  ∧ map (λ c, (pc_path c, line c)) (submitted (trace (Action.main first_run_world)))
    = [("config.yml", 12%Z)]
  ∧ buildSecretFingerprint finding_c = "bbb2222:config.yml:aws-key:12"
  ∧ Action.exit_status (Action.main first_run_world) = 1%Z.
Proof. by vm_compute. Qed.

Example scenario_second_run :
  submitted (trace (Action.main second_run_world)) = []
  ∧ Action.exit_status (Action.main second_run_world) = 1%Z.
Proof. by vm_compute. Qed.

Example scenario_latest_version :
  let w := sample_world (<["GITLEAKS_VERSION":="latest"]> push_env) "linux"
                        empty_push_event 0 ReportMissing [] [] in
  Action.resolveGitleaksVersion w "latest"
  = ([LogInfo "Resolving latest Gitleaks version...";
      GetLatestRelease "zricethezav" "gitleaks"], Ret "8.30.0").
Proof. reflexivity. Qed.

End Idempotence.

(** * Further properties of the sources *)

(** ** Release archive and installation *)

Section Installation.
Import Scanner.

Lemma substring_app_skip (a b : string) (i k : nat) :
  String.substring (String.length a + i) k (a +:+ b) = String.substring i k b.
Proof.
  induction a as [|c a IH]; [reflexivity|].
  rewrite app_cons. simpl. exact IH.
Qed.

Lemma ends_with_app_r (suffix a b : string) :
  (String.length suffix ≤ String.length b)%nat →
  Js.ends_with suffix (a +:+ b) = Js.ends_with suffix b.
Proof.
  intros Hle. unfold Js.ends_with. rewrite string_length_app.
  replace (String.length a + String.length b - String.length suffix)%nat
    with (String.length a + (String.length b - String.length suffix))%nat
    by lia.
  rewrite substring_app_skip.
  rewrite !(proj2 (Nat.leb_le _ _)) by lia. reflexivity.
Qed.

Lemma buildReleaseUrl_tail (version platform arch : string) :
  ∃ stem, buildReleaseUrl version platform arch = stem +:+ ".tar.gz".
Proof.
  unfold buildReleaseUrl. cbv zeta.
  eexists. rewrite <- !string_app_assoc. reflexivity.
Qed.

Lemma buildReleaseUrl_suffix (version platform arch : string) :
  Js.ends_with ".zip" (buildReleaseUrl version platform arch) = false
  ∧ Js.ends_with ".tar.gz" (buildReleaseUrl version platform arch) = true.
Proof.
  destruct (buildReleaseUrl_tail version platform arch) as [stem ->].
  split; (rewrite ends_with_app_r; [reflexivity | simpl; lia]).
Qed.

Lemma extractArchive_release (w : World)
    (version platform arch archive destination : string) :
  extractArchive w archive destination (buildReleaseUrl version platform arch)
  = call (ExtractTar archive destination) (extract_tar w).
Proof.
  destruct (buildReleaseUrl_suffix version platform arch) as [Hzip Htar].
  unfold extractArchive. by rewrite Hzip, Htar.
Qed.

(** X1: whatever the version, platform and architecture, the release URL
    ends in [.tar.gz] and not in [.zip]; so the archive downloaded from it
    is always unpacked as a tar archive, and neither the zip branch nor the
    unsupported-format error of the dispatch can occur during an
    installation. *)
Theorem X1_release_archive_is_tar (w : World)
    (version platform arch archive destination : string) :
  Js.ends_with ".zip" (buildReleaseUrl version platform arch) = false
  ∧ Js.ends_with ".tar.gz" (buildReleaseUrl version platform arch) = true
  ∧ extractArchive w archive destination
      (buildReleaseUrl version platform arch)
    = call (ExtractTar archive destination) (extract_tar w).
Proof.
  destruct (buildReleaseUrl_suffix version platform arch) as [Hzip Htar].
  repeat split; try done. apply extractArchive_release.
Qed.

Lemma downloadAndInstallBinary_result (w : World)
    (version installPath cacheKey : string) :
  result (downloadAndInstallBinary w version installPath cacheKey)
  = match download_tool w (buildReleaseUrl version (platform w) (arch w))
                        (path_join (tmpdir w) "gitleaks.tmp") with
    | inl msg => Throw msg
    | inr _ => match extract_tar w with
               | inl msg => Throw msg
               | inr _ => Ret tt
               end
    end.
Proof.
  unfold downloadAndInstallBinary. cbv zeta.
  rewrite result_bind. simpl (result (emit _)). cbv iota beta.
  rewrite result_bind. unfold downloadBinary, call.
  destruct (download_tool w _ _) as [msg|archive]; [reflexivity|].
  simpl (result (try_catch _ _)). cbv iota beta.
  rewrite result_bind, extractArchive_release. unfold call.
  destruct (extract_tar w) as [msg|[]]; [reflexivity|].
  simpl (result (_, _)). cbv iota beta.
  unfold trySaveToCache, call.
  destruct (cache_save w cacheKey) as [msg|[]]; reflexivity.
Qed.

Lemma tryRestoreFromCache_result (w : World) (installPath cacheKey : string) :
  result (tryRestoreFromCache w installPath cacheKey)
  = Ret (match cache_restore w cacheKey with
         | inr (Some _) => true
         | _ => false
         end).
Proof.
  unfold tryRestoreFromCache, call.
  destruct (cache_restore w cacheKey) as [msg|[restored|]]; reflexivity.
Qed.

(** X2: the outcome of an installation depends on the cache hit, the
    download and the tar extraction only.  On a cache hit it returns the
    install path.  Otherwise (a miss and a failed restore alike) it throws
    the message of a failed download or extraction and returns the install
    path when both succeed; a failed save to the cache never changes the
    outcome, and the installation never exits the process. *)
Theorem X2_install_outcome (w : World) (version : string) :
  result (Install w version)
  = match cache_restore w (buildCacheKey version (platform w) (arch w)) with
    | inr (Some _) => Ret (getInstallPath w version)
    | _ =>
        match download_tool w (buildReleaseUrl version (platform w) (arch w))
                            (path_join (tmpdir w) "gitleaks.tmp") with
        | inl msg => Throw msg
        | inr _ => match extract_tar w with
                   | inl msg => Throw msg
                   | inr _ => Ret (getInstallPath w version)
                   end
        end
    end.
Proof.
  unfold Install. cbv zeta.
  rewrite result_bind. simpl (result (emit _)). cbv iota beta.
  rewrite result_bind, tryRestoreFromCache_result. cbv iota beta.
  rewrite result_bind.
  destruct (cache_restore w _) as [msg|[restored|]]; cbv iota.
  2: reflexivity.
  all: rewrite downloadAndInstallBinary_result;
    destruct (download_tool w _ _) as [dmsg|archive]; [reflexivity|];
    destruct (extract_tar w) as [emsg|[]]; reflexivity.
Qed.

Example install_survives_broken_cache :
  result (Install broken_cache_world "8.24.3") = Ret "/tmp/gitleaks-8.24.3"
  ∧ trace (Install broken_cache_world "8.24.3")
    = [LogInfo "Installing Gitleaks 8.24.3 to /tmp/gitleaks-8.24.3";
       CacheRestore ["/tmp/gitleaks-8.24.3"] "gitleaks-cache-8.24.3-linux-x64";
       LogWarning "Cache restore failed: cache service unavailable";
       LogInfo "Downloading Gitleaks from https://github.com/zricethezav/gitleaks/releases/download/v8.24.3/gitleaks_8.24.3_linux_x64.tar.gz";
       Download "https://github.com/zricethezav/gitleaks/releases/download/v8.24.3/gitleaks_8.24.3_linux_x64.tar.gz" "/tmp/gitleaks.tmp";
       ExtractTar "/tmp/gitleaks.tmp" "/tmp/gitleaks-8.24.3";
       CacheSave ["/tmp/gitleaks-8.24.3"] "gitleaks-cache-8.24.3-linux-x64";
       LogWarning "Cache save failed: cache service unavailable";
       AddPath "/tmp/gitleaks-8.24.3"].
Proof. by vm_compute. Qed.

(** X3: on a cache hit the installation asks the cache, adds the
    install directory to the search path and returns it; nothing is
    downloaded, extracted or saved. *)
Theorem X3_cache_hit_skips_download (w : World) (version restored : string) :
  cache_restore w (buildCacheKey version (platform w) (arch w))
  = inr (Some restored) →
  Install w version
  = ([LogInfo ("Installing Gitleaks " +:+ version +:+ " to "
               +:+ getInstallPath w version);
      CacheRestore [getInstallPath w version]
                   (buildCacheKey version (platform w) (arch w));
      LogInfo "Gitleaks restored from cache";
      AddPath (getInstallPath w version)],
     Ret (getInstallPath w version)).
Proof.
  intros Hhit. unfold Install, tryRestoreFromCache, call. cbv zeta.
  rewrite Hhit. reflexivity.
Qed.

Lemma X3_cache_hit_skips_download_witness :
  every no_acquisition (Install cached_world "8.24.3")
  ∧ result (Install cached_world "8.24.3") = Ret "/tmp/gitleaks-8.24.3".
Proof.
  rewrite (X3_cache_hit_skips_download cached_world "8.24.3"
             "gitleaks-cache-8.24.3-linux-x64"); [|reflexivity].
  split; [|reflexivity]. unfold every. simpl. by repeat constructor.
Defined.

End Installation.

(** ** The run as a whole *)

Section WholeRun.
Import Scanner Action.

(** Unfolds the stages of a run down to the effects they perform. *)
Ltac unfold_stages :=
  unfold validateSubscription, validateEventType, loadEventData,
    resolveGitleaksVersion, Latest, Install, tryRestoreFromCache,
    downloadAndInstallBinary, downloadBinary, extractArchive, trySaveToCache,
    performScan, buildPushScanInfo, id_at, executeScan, ScanPullRequest,
    validateGitHubToken, pullRequestScanInfo, fetchPullRequestCommits,
    buildScanInfoFromCommits, sha_at, Scan, uploadScanArtifact,
    postPullRequestComments, parseSarifFile, fetchExistingComments,
    postReviewComment, generateSummary, writeSummary, writeSuccessSummary,
    writeLeaksDetectedSummary, writeErrorSummary, parseSarifResults,
    readReportJson, handleScanResult.

Lemma after_version_no_lookup (w : World) (eventType : string)
    (eventData : EventData) (cfg : Config) (version : string) :
  every no_release_lookup
    (do _ ← emit (LogInfo ("Gitleaks version: " +:+ version));
     do gitleaksPath ← Install w version;
     do exitCode ← performScan w eventType eventData
                     {| config := cfg; eventData := eventData;
                        gitleaksPath := gitleaksPath |};
     do _ ← generateSummary w exitCode eventData (enableSummary cfg);
     handleScanResult exitCode).
Proof. unfold_stages. every_effect; exact I. Qed.

Lemma resolve_fixed_version (w : World) :
  getenv w "GITLEAKS_VERSION" ≠ Some "latest" →
  resolveGitleaksVersion w (version (parseEnvironmentConfig w))
  = ret (Js.or_else (getenv w "GITLEAKS_VERSION") DEFAULT_GITLEAKS_VERSION).
Proof.
  intros Hne. unfold resolveGitleaksVersion, parseEnvironmentConfig.
  simpl version. unfold Js.or_else.
  destruct (getenv w "GITLEAKS_VERSION") as [v|]; [|reflexivity].
  destruct (String.eqb_spec v "") as [->|Hv]; [reflexivity|].
  destruct (String.eqb_spec v "latest") as [->|Hl]; [done | reflexivity].
Qed.

(** X4: the hosting API is asked for the latest release only when the
    configured version is the literal [latest].  With any other value of
    [GITLEAKS_VERSION] (or none, or the empty one, which select 8.24.3)
    the version is used as it is and no run ever looks the release up. *)
Theorem X4_release_lookup_only_for_latest (w : World) :
  getenv w "GITLEAKS_VERSION" ≠ Some "latest" →
  resolveGitleaksVersion w (version (parseEnvironmentConfig w))
  = ([], Ret (Js.or_else (getenv w "GITLEAKS_VERSION") "8.24.3"))
  ∧ every no_release_lookup (main w).
Proof.
  intros Hne. split; [by apply resolve_fixed_version|].
  unfold main. apply every_try_catch; [|intros; every_effect; exact I].
  unfold run.
  apply every_bind;
    [unfold validateSubscription; every_effect; exact I | intros _ _].
  cbv zeta.
  apply every_bind; [every_effect; exact I | intros _ _].
  apply every_bind; [every_effect; exact I | intros _ _].
  apply every_bind;
    [unfold validateEventType; every_effect; exact I | intros _ _].
  apply every_bind;
    [unfold loadEventData; every_effect; exact I | intros ev _].
  rewrite (resolve_fixed_version w Hne).
  apply every_bind; [apply every_ret | intros v _].
  apply after_version_no_lookup.
Qed.

Lemma X4_release_lookup_only_for_latest_witness :
  every no_release_lookup (main pinned_version_world)
  ∧ resolveGitleaksVersion pinned_version_world
      (version (parseEnvironmentConfig pinned_version_world))
    = ([], Ret "8.21.0").
Proof.
  destruct (X4_release_lookup_only_for_latest pinned_version_world)
    as [Hres Hrun].
  - discriminate.
  - split; [exact Hrun | exact Hres].
Defined.

Lemma invocations_try_catch_silent {A} (m : M A) (h : string → M A) :
  (∀ e, every not_exec (h e)) →
  invocations (trace (try_catch m h)) = invocations (trace m).
Proof.
  intros Hh. rewrite trace_try_catch, invocations_app.
  destruct (result m); rewrite ?app_nil_r; try done.
  by rewrite (silent_invocations _ (Hh msg)), app_nil_r.
Qed.

Lemma at_most_once_silent_bind {A B} (m : M A) (f : A → M B) :
  every not_exec m →
  (∀ a, length (invocations (trace (f a))) ≤ 1) →
  length (invocations (trace (bind m f))) ≤ 1.
Proof.
  intros Hm Hf. rewrite invocations_bind, (silent_invocations _ Hm).
  destruct (result m); simpl; [apply Hf | lia..].
Qed.

Lemma at_most_once_bind_silent {A B} (m : M A) (f : A → M B) :
  length (invocations (trace m)) ≤ 1 →
  (∀ a, every not_exec (f a)) →
  length (invocations (trace (bind m f))) ≤ 1.
Proof. intros Hm Hf. by rewrite invocations_bind_silent. Qed.

Lemma Scan_at_most_once (w : World) (shouldUploadArtifact : bool)
    (scanInfo : ScanInfo) (eventType : string) :
  length (invocations (trace (Scan w shouldUploadArtifact scanInfo eventType)))
  ≤ 1.
Proof. by rewrite Scan_invocations. Qed.

Lemma executeScan_at_most_once (w : World) (scanType : string)
    (scanParams : ScanInfo) (cfg : ScanConfig) :
  length (invocations (trace (executeScan w scanType scanParams cfg))) ≤ 1.
Proof.
  unfold executeScan.
  destruct (_ || _); [apply Scan_at_most_once|].
  destruct (String.eqb _ _).
  - unfold ScanPullRequest.
    apply at_most_once_silent_bind;
      [unfold validateGitHubToken; every_effect; exact I | intros _].
    cbv zeta.
    apply at_most_once_silent_bind.
    { unfold pullRequestScanInfo, fetchPullRequestCommits,
        buildScanInfoFromCommits, sha_at.
      every_effect; exact I. }
    intros scanInfo.
    apply at_most_once_bind_silent; [apply Scan_at_most_once|].
    intros code. apply after_scan_silent.
  - apply at_most_once_silent_bind; [every_effect; exact I | intros _].
    simpl. lia.
Qed.

Lemma performScan_at_most_once (w : World) (eventType : string)
    (eventData : EventData) (cfg : ScanConfig) :
  length (invocations (trace (performScan w eventType eventData cfg))) ≤ 1.
Proof.
  unfold performScan.
  apply at_most_once_silent_bind; [every_effect; exact I | intros _].
  cbv zeta. destruct (String.eqb eventType (PUSH EVENT_TYPES)).
  { apply at_most_once_silent_bind;
      [unfold buildPushScanInfo, id_at; every_effect; exact I | intros si].
    apply executeScan_at_most_once. }
  destruct (String.eqb eventType (PULL_REQUEST EVENT_TYPES));
    [apply executeScan_at_most_once|].
  destruct (_ || _); [apply executeScan_at_most_once|].
  apply at_most_once_silent_bind; [every_effect; exact I | intros _].
  simpl. lia.
Qed.

(** X5: a run starts the engine at most once, whatever the event, the
    configuration and the answers of the outside; nothing (a failed
    upload, a failed comment, a thrown error) makes it scan again. *)
Theorem X5_engine_runs_at_most_once (w : World) :
  length (invocations (trace (main w))) ≤ 1.
Proof.
  unfold main. rewrite invocations_try_catch_silent;
    [|intros; every_effect; exact I].
  unfold run.
  apply at_most_once_silent_bind;
    [apply validateSubscription_silent | intros _].
  cbv zeta.
  apply at_most_once_silent_bind; [every_effect; exact I | intros _].
  apply at_most_once_silent_bind; [every_effect; exact I | intros _].
  apply at_most_once_silent_bind;
    [apply validateEventType_silent | intros _].
  apply at_most_once_silent_bind; [apply loadEventData_silent | intros ev].
  apply at_most_once_silent_bind;
    [apply resolveGitleaksVersion_silent | intros v].
  apply at_most_once_silent_bind; [every_effect; exact I | intros _].
  apply at_most_once_silent_bind; [apply Install_silent | intros installed].
  apply at_most_once_bind_silent; [apply performScan_at_most_once|].
  intros code. apply every_bind;
    [apply generateSummary_silent | intros; apply handleScanResult_silent].
Qed.

Lemma result_of_try_catch {A} (m : M A) (h : string → M A) :
  result (try_catch m h)
  = match result m with Throw e => result (h e) | o => o end.
Proof. destruct m as [t [a|st|e]]; simpl; try done. by destruct (h e). Qed.

Lemma validateSubscription_result (w : World) :
  result (validateSubscription w) = Ret tt
  ∨ result (validateSubscription w) = Exit 1.
Proof.
  unfold validateSubscription. cbv zeta.
  destruct (bool_decide (repo_private w = Some false));
    destruct (subscription_api w); simpl; auto.
Qed.

Lemma validateEventType_returns (eventType : string) :
  result (validateEventType eventType) = Ret tt →
  eventType ∈ SUPPORTED_EVENTS.
Proof.
  unfold validateEventType. case_bool_decide; [done|]. discriminate.
Qed.

Lemma loadEventData_returns (w : World) (eventPath : string)
    (eventData : EventData) :
  result (loadEventData w eventPath) = Ret eventData →
  event_file w eventPath = inr eventData.
Proof.
  unfold loadEventData. destruct (event_file w eventPath); [discriminate|].
  by intros [= ->].
Qed.

(** X6: an event the action does not handle, or a payload file that
    cannot be loaded, ends the run with status 1 before anything is
    acquired or scanned: up to there the run has only written to the log
    and asked the subscription service. *)
Theorem X6_configuration_errors_abort_early (w : World) :
  type (getEventInfo w) ∉ SUPPORTED_EVENTS
  ∨ (∃ msg, event_file w (path (getEventInfo w)) = inl msg) →
  result (main w) = Exit 1 ∧ every log_or_subscription (main w).
Proof.
  intros Hbad. split.
  - unfold main. rewrite result_of_try_catch. unfold run.
    rewrite result_bind.
    destruct (validateSubscription_result w) as [-> | ->]; [|done].
    cbv zeta. rewrite !result_bind. simpl (result (emit _)). cbv iota.
    destruct (result (validateEventType _)) as [[]|st|msg] eqn:Hvalid.
    + apply validateEventType_returns in Hvalid.
      destruct Hbad as [Hbad | [msg Hbad]]; [done|].
      unfold loadEventData. by rewrite Hbad.
    + unfold validateEventType in Hvalid.
      case_bool_decide; simpl in Hvalid; by simplify_eq.
    + unfold validateEventType in Hvalid.
      case_bool_decide; simpl in Hvalid; by simplify_eq.
  - unfold main. apply every_try_catch; [|intros; every_effect; exact I].
    unfold run.
    apply every_bind;
      [unfold validateSubscription; every_effect; exact I | intros _ _].
    cbv zeta.
    apply every_bind; [every_effect; exact I | intros _ _].
    apply every_bind; [every_effect; exact I | intros _ _].
    apply every_bind;
      [unfold validateEventType; every_effect; exact I | intros [] Hvalid].
    apply every_bind;
      [unfold loadEventData; every_effect; exact I | intros ev Hload].
    apply validateEventType_returns in Hvalid.
    apply loadEventData_returns in Hload.
    destruct Hbad as [Hbad | [msg Hbad]]; [done|]. congruence.
Qed.

Lemma X6_configuration_errors_abort_early_witness :
  result (main unsupported_event_world) = Exit 1
  ∧ every log_or_subscription (main unsupported_event_world).
Proof.
  apply (X6_configuration_errors_abort_early unsupported_event_world).
  left.
  apply (bool_decide_eq_false_1
           (type (getEventInfo unsupported_event_world) ∈ SUPPORTED_EVENTS)).
  reflexivity.
Defined.

Lemma for_of_returns {A} (xs : list A) (body : A → M unit) :
  (∀ x, result (body x) = Ret tt) → result (for_of xs body) = Ret tt.
Proof.
  intros Hbody. induction xs as [|x xs IH]; [reflexivity|].
  simpl. by rewrite result_bind, Hbody.
Qed.

Lemma postReviewComment_returns (w : World) (c : PRComment) :
  result (postReviewComment w c) = Ret tt.
Proof. apply postReviewComment_submitted. Qed.

Lemma postPullRequestComments_result (w : World) (owner : string)
    (repo : option string) (pullNumber exitCode : Z) :
  result (postPullRequestComments w owner repo pullNumber exitCode)
  = match pull_comments w with
    | inl msg =>
        if (exitCode =? 2)%Z
        then match reported w with [] => Ret tt | _ => Throw msg end
        else Ret tt
    | inr _ => Ret tt
    end.
Proof.
  unfold postPullRequestComments, reported.
  change (LEAKS_DETECTED Scanner.EXIT_CODES) with 2%Z.
  destruct (exitCode =? 2)%Z; simpl negb; cbv iota;
    [|by destruct (pull_comments w)].
  destruct (parseSarifFile_returns w) as (t & found & -> & _).
  rewrite result_bind. simpl (result (t, _)). cbv iota beta.
  destruct found as [[|secret rest]|]; try by destruct (pull_comments w).
  rewrite result_bind. unfold fetchExistingComments, call.
  destruct (pull_comments w) as [msg|existing]; [reflexivity|].
  simpl (result (_, _)). cbv iota beta.
  apply for_of_returns. intros x.
  destruct (commentAlreadyExists _ _); [reflexivity|].
  apply postReviewComment_returns.
Qed.

Lemma generateSummary_returns (w : World) (exitCode : Z)
    (eventData : EventData) (shouldGenerate : bool) :
  result (generateSummary w exitCode eventData shouldGenerate) = Ret tt.
Proof.
  unfold generateSummary, writeSummary, writeSuccessSummary,
    writeErrorSummary, writeLeaksDetectedSummary, parseSarifResults,
    existsSync, readReportJson.
  destruct shouldGenerate; [|reflexivity]. simpl negb. cbv iota zeta.
  destruct (exitCode =? _)%Z; [reflexivity|].
  destruct (exitCode =? _)%Z; [|reflexivity].
  destruct (report w) as [|msg|[[[|[[[|x found]|]] rest]|]]]; reflexivity.
Qed.

Lemma Scan_result (w : World) (shouldUploadArtifact : bool)
    (scanInfo : ScanInfo) (eventType : string) (code : Z) :
  gitleaks w (env w) (buildScanCommand scanInfo eventType) = inr code →
  result (Scan w shouldUploadArtifact scanInfo eventType)
  = if shouldUploadArtifact
    then match upload_artifact w with
         | inl msg => Throw msg
         | inr _ => Ret code
         end
    else Ret code.
Proof.
  intros Heng. unfold Scan, uploadScanArtifact, when, call. cbv zeta.
  rewrite Heng. destruct shouldUploadArtifact; [|reflexivity].
  destruct (upload_artifact w) as [msg|[]]; reflexivity.
Qed.

Lemma ends_with_code_silent_bind {A B} (code : B) (m : M A) (f : A → M B) :
  every not_exec m →
  (∀ a, invocations (trace (f a)) ≠ [] → ends_with_code code (result (f a))) →
  invocations (trace (bind m f)) ≠ [] →
  ends_with_code code (result (bind m f)).
Proof.
  intros Hm Hf. rewrite invocations_bind, (silent_invocations _ Hm).
  rewrite result_bind. destruct (result m); simpl; [apply Hf | done..].
Qed.

End WholeRun.

Section EngineExit.
Import Scanner Action.

Variable w : World.
Variable code : Z.
Hypothesis engine_exits :
  ∀ args, gitleaks w (env w) args = inr code.

Lemma Scan_ends (shouldUploadArtifact : bool) (scanInfo : ScanInfo)
    (eventType : string) :
  ends_with_code code
    (result (Scan w shouldUploadArtifact scanInfo eventType)).
Proof.
  rewrite (Scan_result w _ _ _ code) by apply engine_exits.
  destruct shouldUploadArtifact; [|by left].
  destruct (upload_artifact w) as [msg|[]]; [right; by exists msg | by left].
Qed.

Lemma ScanPullRequest_ends (shouldUploadArtifact : bool)
    (eventJSON : EventData) (eventType : string) :
  invocations
    (trace (ScanPullRequest w shouldUploadArtifact eventJSON eventType)) ≠ [] →
  ends_with_code code
    (result (ScanPullRequest w shouldUploadArtifact eventJSON eventType)).
Proof.
  unfold ScanPullRequest.
  apply ends_with_code_silent_bind;
    [unfold validateGitHubToken; every_effect; exact I | intros _].
  cbv zeta. apply ends_with_code_silent_bind.
  { unfold pullRequestScanInfo, fetchPullRequestCommits,
      buildScanInfoFromCommits, sha_at.
    every_effect; exact I. }
  intros scanInfo _. rewrite result_bind.
  destruct (Scan_ends shouldUploadArtifact scanInfo eventType)
    as [-> | [msg ->]]; [|right; by exists msg].
  rewrite result_bind. unfold when.
  destruct (shouldPostComments w); [|by left].
  rewrite postPullRequestComments_result.
  destruct (pull_comments w) as [msg|existing]; [|by left].
  destruct (code =? 2)%Z; [|by left].
  destruct (reported w); [by left | right; by exists msg].
Qed.

Lemma executeScan_ends (scanType : string) (scanParams : ScanInfo)
    (cfg : ScanConfig) :
  invocations (trace (executeScan w scanType scanParams cfg)) ≠ [] →
  ends_with_code code (result (executeScan w scanType scanParams cfg)).
Proof.
  unfold executeScan.
  destruct (_ || _); [intros _; apply Scan_ends|].
  destruct (String.eqb _ _); [apply ScanPullRequest_ends | done].
Qed.

Lemma performScan_ends (eventType : string) (eventData : EventData)
    (cfg : ScanConfig) :
  invocations (trace (performScan w eventType eventData cfg)) ≠ [] →
  ends_with_code code (result (performScan w eventType eventData cfg)).
Proof.
  unfold performScan.
  apply ends_with_code_silent_bind; [every_effect; exact I | intros _].
  cbv zeta. destruct (String.eqb eventType (PUSH EVENT_TYPES)).
  { apply ends_with_code_silent_bind;
      [unfold buildPushScanInfo, id_at; every_effect; exact I | intros si].
    apply executeScan_ends. }
  destruct (String.eqb eventType (PULL_REQUEST EVENT_TYPES));
    [apply executeScan_ends|].
  destruct (_ || _); [apply executeScan_ends | done].
Qed.

End EngineExit.

Section ExitAfterScan.
Import Scanner Action.

Lemma scanned_silent_bind {A B} (Q : outcome B → Prop) (m : M A)
    (f : A → M B) :
  every not_exec m →
  (∀ a, invocations (trace (f a)) ≠ [] → Q (result (f a))) →
  invocations (trace (bind m f)) ≠ [] →
  Q (result (bind m f)).
Proof.
  intros Hm Hf. rewrite invocations_bind, (silent_invocations _ Hm).
  rewrite result_bind. destruct (result m); simpl; [apply Hf | done..].
Qed.

Lemma run_ends (w : World) (code : Z) :
  (∀ args, gitleaks w (env w) args = inr code) →
  invocations (trace (run w)) ≠ [] →
  result (run w) = result (handleScanResult code)
  ∨ ∃ msg, result (run w) = Throw msg.
Proof.
  intros Hengine. unfold run.
  set (Q := λ o : outcome unit,
              o = result (handleScanResult code) ∨ ∃ msg, o = Throw msg).
  change (invocations (trace (run w)) ≠ [] → Q (result (run w))).
  unfold run.
  apply (scanned_silent_bind Q);
    [apply validateSubscription_silent | intros _].
  cbv zeta.
  apply (scanned_silent_bind Q); [every_effect; exact I | intros _].
  apply (scanned_silent_bind Q); [every_effect; exact I | intros _].
  apply (scanned_silent_bind Q); [apply validateEventType_silent | intros _].
  apply (scanned_silent_bind Q); [apply loadEventData_silent | intros ev].
  apply (scanned_silent_bind Q);
    [apply resolveGitleaksVersion_silent | intros v].
  apply (scanned_silent_bind Q); [every_effect; exact I | intros _].
  apply (scanned_silent_bind Q); [apply Install_silent | intros installed].
  unfold Q.
  rewrite invocations_bind_silent.
  2: { intros c. apply every_bind;
         [apply generateSummary_silent
         | intros; apply handleScanResult_silent]. }
  intros Hscanned. rewrite result_bind.
  destruct (performScan_ends w code Hengine _ _ _ Hscanned) as [-> | [msg ->]].
  - left. by rewrite result_bind, generateSummary_returns.
  - right. by exists msg.
Qed.

(** X7: once the engine has run, its exit code decides the status of the
    process on every path.  The process ends with status 1 (leaks, or an
    error after the scan such as a rejected upload or comment listing) or,
    for a code other than 2, with the engine's own code; so a run whose
    engine exited with a non-zero code never ends with the success
    status. *)
Theorem X7_engine_exit_decides_status (w : World) (code : Z) :
  (∀ args, gitleaks w (env w) args = inr code) →
  invocations (trace (main w)) ≠ [] →
  (exit_status (main w) = 1%Z ∨ (code ≠ 2%Z ∧ exit_status (main w) = code))
  ∧ (code ≠ 0%Z → exit_status (main w) ≠ 0%Z).
Proof.
  intros Hengine. unfold main.
  rewrite invocations_try_catch_silent by (intros; every_effect; exact I).
  intros Hscanned. unfold exit_status. rewrite result_of_try_catch.
  destruct (run_ends w code Hengine Hscanned) as [-> | [msg ->]].
  - unfold handleScanResult.
    change (ES_SUCCESS EXIT_STATUS) with 0%Z.
    change EXIT_CODE_LEAKS_DETECTED with 2%Z.
    destruct (Z.eqb_spec code 0) as [-> | Hzero]; simpl.
    { split; [right; done | done]. }
    destruct (Z.eqb_spec code 2) as [-> | Htwo]; simpl.
    { split; [by left | done]. }
    split; [by right | done].
  - simpl. split; [by left | done].
Qed.

Lemma X7_engine_exit_decides_status_witness :
  exit_status (main failing_listing_world) = 1%Z
  ∧ exit_status (main failing_listing_world) ≠ 0%Z.
Proof.
  destruct (X7_engine_exit_decides_status failing_listing_world 2)
    as [[Hone | [Hne _]] Hnz].
  - intros args. reflexivity.
  - by vm_compute.
  - split; [exact Hone | apply Hnz; discriminate].
  - by destruct Hne.
Defined.

End ExitAfterScan.

(** ** Scan ranges and command lines *)

Section ScanRanges.
Import Scanner Action.

(** X8: a pull-request scan without [GITHUB_TOKEN] (unset or empty) logs
    one error and exits with status 1 at once: no commit list is fetched,
    the engine is not run and no comment is read or written. *)
Theorem X8_pull_request_needs_token (w : World) (shouldUploadArtifact : bool)
    (eventJSON : EventData) (eventType : string) :
  not_supplied (getenv w "GITHUB_TOKEN") →
  result (ScanPullRequest w shouldUploadArtifact eventJSON eventType) = Exit 1
  ∧ every log_only (ScanPullRequest w shouldUploadArtifact eventJSON eventType)
  ∧ length (trace (ScanPullRequest w shouldUploadArtifact eventJSON eventType))
    = 1.
Proof.
  intros Hno. unfold ScanPullRequest, validateGitHubToken, every.
  rewrite (truthy_not_supplied _ Hno). simpl.
  repeat split. by repeat constructor.
Qed.

Lemma X8_pull_request_needs_token_witness :
  result (ScanPullRequest tokenless_world true pull_request_event
                          "pull_request") = Exit 1
  ∧ result (main tokenless_world) = Exit 1
  ∧ invocations (trace (main tokenless_world)) = [].
Proof.
  split; [|by vm_compute].
  apply (X8_pull_request_needs_token tokenless_world true pull_request_event
           "pull_request").
  left. reflexivity.
Defined.

Lemma id_at_first (commits : list PushCommit) (c : PushCommit) :
  head commits = Some c → id_at commits (Some 0%nat) = ret (id c).
Proof. rewrite head_lookup. unfold id_at. simpl. by intros ->. Qed.

Lemma id_at_last (commits : list PushCommit) (c : PushCommit) :
  last commits = Some c → id_at commits (last_index commits) = ret (id c).
Proof.
  rewrite last_lookup. unfold id_at, last_index.
  destruct commits as [|c0 rest]; [done|]. simpl. by intros ->.
Qed.

(** X9: for a push that carries commits, the scan range never fails to
    resolve: the base is the override when one is supplied and the first
    commit of the push otherwise, the head is the last commit of the push,
    and the override is logged exactly when it is used.  A push of a single
    commit without override therefore has equal base and head. *)
Theorem X9_push_range (eventData : EventData) (baseRefOverride : option string)
    (pushed : list PushCommit) (c_first c_last : PushCommit) :
  commits eventData = Some pushed →
  head pushed = Some c_first →
  last pushed = Some c_last →
  result (buildPushScanInfo eventData baseRefOverride)
  = Ret {| Scanner.baseRef := Some (Js.or_else baseRefOverride (id c_first));
           headRef := Some (id c_last);
           Scanner.gitleaksPath := None |}
  ∧ length (trace (buildPushScanInfo eventData baseRefOverride))
    = (if Js.truthy baseRefOverride then 1 else 0)%nat
  ∧ (not_supplied baseRefOverride → pushed = [c_first] →
     Js.or_else baseRefOverride (id c_first) = id c_last).
Proof.
  intros Hcommits Hfirst Hlast. unfold buildPushScanInfo. rewrite Hcommits.
  destruct pushed as [|c0 rest]; [done|].
  rewrite (id_at_first _ _ Hfirst), (id_at_last _ _ Hlast).
  repeat split.
  - destruct baseRefOverride as [s|]; simpl; [|reflexivity].
    by destruct (String.eqb s "").
  - destruct baseRefOverride as [s|]; simpl; [|reflexivity].
    by destruct (String.eqb s "").
  - intros Hno Hone. injection Hone as -> ->.
    simpl in Hfirst, Hlast. simplify_eq.
    by destruct Hno as [-> | ->].
Qed.

Lemma X9_push_range_witness :
  result (buildPushScanInfo three_commit_push None)
  = Ret {| Scanner.baseRef := Some "aaa1111"; headRef := Some "bbb2222";
           Scanner.gitleaksPath := None |}
  ∧ result (buildPushScanInfo three_commit_push (Some "main"))
    = Ret {| Scanner.baseRef := Some "main"; headRef := Some "bbb2222";
             Scanner.gitleaksPath := None |}.
Proof.
  split.
  - apply (X9_push_range three_commit_push None
             [ {| id := "aaa1111" |}; {| id := "ccc3333" |};
               {| id := "bbb2222" |} ]
             {| id := "aaa1111" |} {| id := "bbb2222" |}); reflexivity.
  - apply (X9_push_range three_commit_push (Some "main")
             [ {| id := "aaa1111" |}; {| id := "ccc3333" |};
               {| id := "bbb2222" |} ]
             {| id := "aaa1111" |} {| id := "bbb2222" |}); reflexivity.
Defined.

Example single_commit_push_scans_one_commit :
  invocations
    (trace (main (sample_world push_env "linux" single_push_event 0
                               ReportMissing [] [])))
  = [("gitleaks", fixed_arguments ++ ["--log-opts=-1"])].
Proof. by vm_compute. Qed.

Lemma buildScanCommand_other_events (scanInfo : ScanInfo)
    (eventType : string) :
  eventType ≠ "push" → eventType ≠ "pull_request" →
  buildScanCommand scanInfo eventType = fixed_arguments.
Proof.
  intros Hpush Hpr. unfold buildScanCommand, buildGitLogOptions.
  destruct (String.eqb_spec eventType "push"); [done|].
  destruct (String.eqb_spec eventType "pull_request"); [done|].
  reflexivity.
Qed.

(** X10: a manual or scheduled run scans the whole history: whatever the
    payload, the commits it lists and the base-ref override, the engine is
    run once with the seven fixed arguments and no log range. *)
Theorem X10_manual_and_scheduled_scan_everything (w : World)
    (eventType : string) (eventData : EventData) (cfg : ScanConfig) :
  eventType = "workflow_dispatch" ∨ eventType = "schedule" →
  invocations (trace (performScan w eventType eventData cfg))
  = [("gitleaks",
      ["detect"; "--redact"; "-v"; "--exit-code=2"; "--report-format=sarif";
       "--report-path=results.sarif"; "--log-level=debug"])].
Proof.
  intros Hevent. unfold performScan.
  rewrite invocations_bind. simpl (invocations (trace (emit _))).
  simpl (result (emit _)). cbv iota beta zeta. rewrite app_nil_l.
  assert (String.eqb eventType (PUSH EVENT_TYPES) = false
          ∧ String.eqb eventType (PULL_REQUEST EVENT_TYPES) = false
          ∧ String.eqb eventType (WORKFLOW_DISPATCH EVENT_TYPES)
            || String.eqb eventType (SCHEDULE EVENT_TYPES) = true)
    as (-> & -> & ->).
  { destruct Hevent as [-> | ->]; by vm_compute. }
  unfold executeScan.
  assert (String.eqb eventType (PUSH EVENT_TYPES)
          || String.eqb eventType (WORKFLOW_DISPATCH EVENT_TYPES)
          || String.eqb eventType (SCHEDULE EVENT_TYPES) = true) as ->.
  { destruct Hevent as [-> | ->]; by vm_compute. }
  rewrite Scan_invocations, buildScanCommand_other_events; [reflexivity|..];
    destruct Hevent as [-> | ->]; discriminate.
Qed.

Lemma X10_manual_and_scheduled_scan_everything_witness :
  let w := sample_world (<["BASE_REF":="main"]> push_env) "linux"
                        three_commit_push 0 ReportMissing [] [] in
  invocations
    (trace (performScan w "schedule" three_commit_push
              {| config := parseEnvironmentConfig w;
                 eventData := three_commit_push;
                 gitleaksPath := "/tmp/gitleaks-8.24.3" |}))
  = [("gitleaks",
      ["detect"; "--redact"; "-v"; "--exit-code=2"; "--report-format=sarif";
       "--report-path=results.sarif"; "--log-level=debug"])].
Proof.
  intros w. apply X10_manual_and_scheduled_scan_everything.
  right. reflexivity.
Defined.

(** X11: every engine command line starts with the same seven arguments,
    among them the redaction flag, the exit-code convention and the report
    path; it has one more argument, the log range, exactly for push and
    pull-request events. *)
Theorem X11_fixed_arguments (scanInfo : ScanInfo) (eventType : string) :
  take 7 (buildScanCommand scanInfo eventType)
  = ["detect"; "--redact"; "-v"; "--exit-code=2"; "--report-format=sarif";
     "--report-path=results.sarif"; "--log-level=debug"]
  ∧ (length (buildScanCommand scanInfo eventType) = 8%nat
     ↔ eventType = "push" ∨ eventType = "pull_request")
  ∧ (length (buildScanCommand scanInfo eventType) = 7%nat
     ↔ eventType ≠ "push" ∧ eventType ≠ "pull_request")
  ∧ (∀ arg, drop 7 (buildScanCommand scanInfo eventType) = [arg] →
            String.prefix "--log-opts=" arg = true).
Proof.
  unfold buildScanCommand, buildGitLogOptions.
  destruct (String.eqb_spec eventType "push") as [-> | Hpush].
  { simpl orb. cbv iota. case_bool_decide.
    - repeat split; auto; try (intros [? ?]; done); try discriminate.
      intros arg [= <-]. reflexivity.
    - rewrite truthy_app_cons.
      repeat split; auto; try (intros [? ?]; done); try discriminate.
      intros arg [= <-]. reflexivity. }
  destruct (String.eqb_spec eventType "pull_request") as [-> | Hpr].
  { simpl orb. cbv iota. case_bool_decide.
    - repeat split; auto; try (intros [? ?]; done); try discriminate.
      intros arg [= <-]. reflexivity.
    - rewrite truthy_app_cons.
      repeat split; auto; try (intros [? ?]; done); try discriminate.
      intros arg [= <-]. reflexivity. }
  simpl. repeat split; auto; try discriminate.
  intros [? | ?]; done.
Qed.

End ScanRanges.

(** ** Reading and rendering the report *)

Section Reporting.
Import Scanner Action.

(** X12: the parser of the comment reporter and the parser of the summary
    read the same findings from every report file: both return, neither
    throws nor exits, and they return the same list or both nothing. *)
Theorem X12_parsers_agree (w : World) :
  result (parseSarifFile w) = result (parseSarifResults w SARIF_FILE_PATH)
  ∧ (∃ found, result (parseSarifFile w) = Ret found)
  ∧ every log_only (parseSarifFile w)
  ∧ every log_only (parseSarifResults w SARIF_FILE_PATH).
Proof.
  unfold every, parseSarifFile, parseSarifResults, existsSync, readReportJson.
  destruct (report w) as [|msg|[[[|[[found|]] rest]|]]]; simpl;
    repeat split; eauto; by repeat constructor.
Qed.

(** X13: the summary table is rectangular: a header row followed by one
    row per finding, in the order of the report, and every row has the
    eight cells of the header. *)
Theorem X13_table_shape (secrets : list SarifResult) (repoUrl : string) :
  head (buildSecretsTable secrets repoUrl) = Some TABLE_HEADERS
  ∧ length (buildSecretsTable secrets repoUrl) = S (length secrets)
  ∧ Forall (λ row, length row = 8%nat) (buildSecretsTable secrets repoUrl)
  ∧ (∀ i secret, secrets !! i = Some secret →
       buildSecretsTable secrets repoUrl !! S i
       = Some (formatSecretRow secret repoUrl)).
Proof.
  unfold buildSecretsTable. cbv zeta. repeat split.
  - simpl. by rewrite length_map.
  - constructor; [reflexivity|].
    induction secrets as [|s rest IH]; simpl; constructor; [reflexivity|done].
  - intros i secret Hi. simpl.
    revert i Hi. induction secrets as [|s rest IH]; intros [|i] Hi;
      simplify_eq/=; auto.
Qed.

End Reporting.

(** ** Posting review comments *)

Section Posting.
Import Scanner.

(** X15: a rejected comment does not stop the reporter.  When the listing
    of the existing comments succeeds, the reporter returns normally
    whatever the hosting API answers to each new comment, and it submits
    the comment of every finding that no listed comment matches, one per
    finding and in the order of the report. *)
Theorem X15_rejected_comments_are_not_fatal (w : World) (owner : string)
    (repo : option string) (pullNumber : Z)
    (existing : list ExistingComment) :
  pull_comments w = inr existing →
  result (postPullRequestComments w owner repo pullNumber 2) = Ret tt
  ∧ submitted (trace (postPullRequestComments w owner repo pullNumber 2))
    = List.filter (λ c, negb (commentAlreadyExists existing c))
        (map (λ secret, buildReviewComment w secret owner repo pullNumber)
             (reported w))
  ∧ (existing = [] →
     length (submitted
               (trace (postPullRequestComments w owner repo pullNumber 2)))
     = length (reported w)).
Proof.
  intros Hlist. split; [|split].
  - rewrite postPullRequestComments_result. by rewrite Hlist.
  - by apply postPullRequestComments_submitted.
  - intros ->.
    rewrite (postPullRequestComments_submitted w owner repo pullNumber []
               Hlist).
    generalize (reported w). intros found.
    induction found as [|s rest IH]; simpl; [reflexivity | f_equal; exact IH].
Qed.

Lemma X15_rejected_comments_are_not_fatal_witness :
  result (postPullRequestComments rejecting_world "acme" (Some "app") 7 2)
  = Ret tt
  ∧ map (λ c, pc_path c)
      (submitted
         (trace (postPullRequestComments rejecting_world "acme" (Some "app")
                                         7 2)))
    = ["config.yml"; "cfg:generic"]
  ∧ length (warnings
              (trace (postPullRequestComments rejecting_world "acme"
                                              (Some "app") 7 2)))
    = 2%nat.
Proof.
  destruct (X15_rejected_comments_are_not_fatal rejecting_world "acme"
              (Some "app") 7 []) as (Hres & Hsub & _).
  - reflexivity.
  - split; [exact Hres|]. rewrite Hsub. split; reflexivity.
Defined.

(** X16: the listing of the existing comments is not protected: when the
    engine reports leaks, the report holds findings and the hosting API
    rejects the listing, the reporter throws the error of the listing and
    submits no comment. *)
Theorem X16_failed_listing_is_fatal (w : World) (owner : string)
    (repo : option string) (pullNumber : Z) (msg : string) :
  pull_comments w = inl msg →
  reported w ≠ [] →
  result (postPullRequestComments w owner repo pullNumber 2) = Throw msg
  ∧ submitted (trace (postPullRequestComments w owner repo pullNumber 2)) = []
  ∧ last (trace (postPullRequestComments w owner repo pullNumber 2))
    = Some (ListPullComments owner repo pullNumber).
Proof.
  intros Hlist Hfound. split.
  { rewrite postPullRequestComments_result, Hlist. simpl.
    by destruct (reported w). }
  revert Hfound.
  unfold postPullRequestComments, reported, parseSarifFile, existsSync,
    readReportJson, fetchExistingComments, call.
  rewrite Hlist.
  destruct (report w) as [|m|[[[|[[[|x found]|]] rest]|]]]; simpl; done.
Qed.

Lemma X16_failed_listing_is_fatal_witness :
  result (postPullRequestComments failing_listing_world "acme" (Some "app")
                                  7 2)
  = Throw "Resource not accessible by integration"
  ∧ submitted
      (trace (postPullRequestComments failing_listing_world "acme"
                                      (Some "app") 7 2)) = [].
Proof.
  destruct (X16_failed_listing_is_fatal failing_listing_world "acme"
              (Some "app") 7 "Resource not accessible by integration")
    as (Hres & Hsub & _).
  - reflexivity.
  - discriminate.
  - split; [exact Hres | exact Hsub].
Defined.

Lemma Scan_returns_inv (w : World) (shouldUploadArtifact : bool)
    (scanInfo : ScanInfo) (eventType : string) (code : Z) :
  result (Scan w shouldUploadArtifact scanInfo eventType) = Ret code →
  gitleaks w (env w) (buildScanCommand scanInfo eventType) = inr code.
Proof.
  unfold Scan, uploadScanArtifact, when, call. cbv zeta.
  destruct (gitleaks w (env w) _) as [msg|c]; [discriminate|].
  destruct shouldUploadArtifact; simpl; [|by intros [= ->]].
  destruct (upload_artifact w) as [msg|[]]; simpl; [discriminate|].
  by intros [= ->].
Qed.

(** X17: the comment API is used only when comments are enabled and the
    engine has exited with code 2.  With [GITLEAKS_ENABLE_COMMENTS] set to
    [false], or with an engine that never exits with 2, a pull-request scan
    neither lists nor creates a review comment. *)
Theorem X17_comments_gate (w : World) (shouldUploadArtifact : bool)
    (eventJSON : EventData) (eventType : string) :
  getenv w "GITLEAKS_ENABLE_COMMENTS" = Some "false"
  ∨ (∀ args, gitleaks w (env w) args ≠ inr 2%Z) →
  every no_comment_api
    (ScanPullRequest w shouldUploadArtifact eventJSON eventType).
Proof.
  intros Hgate. unfold ScanPullRequest.
  apply every_bind;
    [unfold validateGitHubToken; every_effect; exact I | intros _ _].
  cbv zeta. apply every_bind.
  { unfold pullRequestScanInfo, fetchPullRequestCommits,
      buildScanInfoFromCommits, sha_at.
    every_effect; exact I. }
  intros scanInfo _. apply every_bind.
  { unfold Scan, uploadScanArtifact. every_effect; exact I. }
  intros code Hcode. apply every_bind; [|intros; apply every_ret].
  destruct Hgate as [Hoff | Hnever].
  - unfold shouldPostComments. rewrite Hoff. apply every_ret.
  - apply every_when. unfold postPullRequestComments.
    apply Scan_returns_inv in Hcode.
    change (LEAKS_DETECTED EXIT_CODES) with 2%Z.
    destruct (Z.eqb_spec code 2) as [-> | Hne]; [by apply Hnever in Hcode|].
    apply every_ret.
Qed.

Lemma X17_comments_gate_witness :
  every no_comment_api
    (ScanPullRequest comments_off_world true pull_request_event
                     "pull_request")
  ∧ submitted (trace (Action.main comments_off_world)) = [].
Proof.
  split; [|by vm_compute].
  apply X17_comments_gate. left. reflexivity.
Defined.

End Posting.

(** ** Comment bodies and the mention list *)

Section Mentions.
Import Scanner.

Lemma string_app_empty_r (a : string) : a +:+ "" = a.
Proof. induction a as [|c a IH]; [reflexivity|]. by rewrite app_cons, IH. Qed.

Lemma buildCommentBody_mentions (result : SarifResult) (fingerprint : string)
    (userList : option string) :
  buildCommentBody result fingerprint userList
  = buildCommentBody result fingerprint None
    +:+ match mentions userList with
        | Some list => LF +:+ LF +:+ "cc " +:+ list
        | None => ""
        end.
Proof.
  unfold buildCommentBody, mentions. cbv zeta.
  destruct userList as [s|]; simpl Js.truthy; cbv iota;
    [|by rewrite string_app_empty_r].
  destruct (String.eqb s ""); simpl negb; cbv iota;
    [by rewrite string_app_empty_r | reflexivity].
Qed.

(** X18: the mention list is part of what makes a comment a duplicate.
    For one and the same finding, two runs whose mention lists differ (as
    used: an unset and an empty variable both mean no list) build
    different comment bodies, so the comment posted by the one is not
    recognised by the other, which posts the finding again; with equal
    lists the comment is recognised. *)
Theorem X18_mention_list_defeats_deduplication (w1 w2 : World)
    (secret : SarifResult) (owner : string) (repo : option string)
    (pullNumber : Z) :
  commentAlreadyExists
    [as_existing (buildReviewComment w1 secret owner repo pullNumber)]
    (buildReviewComment w2 secret owner repo pullNumber)
  = bool_decide (mentions (getenv w1 "GITLEAKS_NOTIFY_USER_LIST")
                 = mentions (getenv w2 "GITLEAKS_NOTIFY_USER_LIST")).
Proof.
  unfold commentAlreadyExists, isCommentDuplicate, as_existing,
    buildReviewComment. simpl.
  rewrite String.eqb_refl, bool_decide_eq_true_2 by done.
  rewrite orb_false_r, !andb_true_r.
  rewrite (buildCommentBody_mentions _ _ (getenv w1 _)),
    (buildCommentBody_mentions _ _ (getenv w2 _)).
  set (base := buildCommentBody secret (buildSecretFingerprint secret) None).
  destruct (mentions (getenv w1 _)) as [l1|],
           (mentions (getenv w2 _)) as [l2|].
  - destruct (String.eqb_spec (base +:+ LF +:+ LF +:+ "cc " +:+ l1)
                              (base +:+ LF +:+ LF +:+ "cc " +:+ l2))
      as [Heq | Hne].
    + do 4 apply String.app_inj in Heq. subst.
      by rewrite bool_decide_eq_true_2.
    + rewrite bool_decide_eq_false_2; [done|]. intros [= ->]. by apply Hne.
  - destruct (String.eqb_spec (base +:+ LF +:+ LF +:+ "cc " +:+ l1)
                              (base +:+ "")) as [Heq | Hne]; [|done].
    apply String.app_inj in Heq. discriminate Heq.
  - destruct (String.eqb_spec (base +:+ "")
                              (base +:+ LF +:+ LF +:+ "cc " +:+ l2))
      as [Heq | Hne]; [|done].
    apply String.app_inj in Heq. discriminate Heq.
  - by rewrite String.eqb_refl.
Qed.

Example mention_list_change_reposts :
  let w := sample_world (<["GITLEAKS_NOTIFY_USER_LIST":="@security"]>
                           pull_request_env)
             "linux" pull_request_event 2 (report_of [finding_c]) []
             [as_existing first_run_comment] in
  length (submitted (trace (Action.main w))) = 1%nat
  ∧ submitted (trace (Action.main second_run_world)) = [].
Proof. by vm_compute. Qed.

End Mentions.

(** ** Repository names *)

Section RepositoryNames.
Import Scanner Action.

Lemma split_on_cons (c x : ascii) (s : string) :
  Js.split_on c (String x s)
  = if Ascii.eqb x c then "" :: Js.split_on c s
    else match Js.split_on c s with
         | h :: t => String x h :: t
         | [] => [String x ""]
         end.
Proof. reflexivity. Qed.

Lemma split_on_none (c : ascii) (a : string) :
  Js.contains_char c a = false → Js.split_on c a = [a].
Proof.
  induction a as [|x a IH]; [reflexivity|].
  intros [Hx Ha]%orb_false_iff. by rewrite split_on_cons, Hx, (IH Ha).
Qed.

Lemma split_on_first (c : ascii) (a b : string) :
  Js.contains_char c a = false →
  Js.split_on c (a +:+ String c b) = a :: Js.split_on c b.
Proof.
  induction a as [|x a IH]; intros Ha.
  - by rewrite app_empty_l, split_on_cons, Ascii.eqb_refl.
  - apply orb_false_iff in Ha as [Hx Ha].
    by rewrite app_cons, split_on_cons, Hx, (IH Ha).
Qed.

(** X19: the full name of a repository is split at its slashes.  A name
    [owner/repo] whose two parts hold no slash gives back exactly that
    owner and that repository; a name without slash gives itself as owner
    and no repository at all. *)
Theorem X19_repository_name_split (owner repo : string) :
  Js.contains_char "/" owner = false →
  Js.contains_char "/" repo = false →
  extractRepoInfo (owner +:+ "/" +:+ repo)
  = {| ri_owner := owner; ri_repo := Some repo |}
  ∧ extractRepoInfo owner = {| ri_owner := owner; ri_repo := None |}.
Proof.
  intros Howner Hrepo. unfold extractRepoInfo. cbv zeta. split.
  - change (owner +:+ "/" +:+ repo) with (owner +:+ String "/" ("" +:+ repo)).
    rewrite app_empty_l, (split_on_first _ _ _ Howner),
      (split_on_none _ _ Hrepo).
    reflexivity.
  - by rewrite (split_on_none _ _ Howner).
Qed.

Lemma X19_repository_name_split_witness :
  extractRepoInfo "acme/app" = {| ri_owner := "acme"; ri_repo := Some "app" |}
  ∧ extractRepoInfo "acme" = {| ri_owner := "acme"; ri_repo := None |}.
Proof.
  apply (X19_repository_name_split "acme" "app"); reflexivity.
Defined.

Lemma prefix_app (a b : string) : String.prefix a (a +:+ b) = true.
Proof.
  induction a as [|c a IH]; [by destruct b|].
  rewrite app_cons. simpl. by destruct (ascii_dec c c).
Qed.

Lemma drop_chars_app (a b : string) :
  Js.drop_chars (String.length a) (a +:+ b) = b.
Proof. induction a as [|c a IH]; [reflexivity|]. rewrite app_cons. exact IH. Qed.

Lemma replace_first_prefix (a rep b : string) :
  Js.replace_first a rep (a +:+ b) = rep +:+ b.
Proof.
  assert (∀ s, Js.replace_first a rep s
               = if String.prefix a s
                 then rep +:+ Js.drop_chars (String.length a) s
                 else match s with
                      | EmptyString => ""
                      | String c s' => String c (Js.replace_first a rep s')
                      end) as Hunfold by (by intros [|c s]).
  by rewrite Hunfold, prefix_app, drop_chars_app.
Qed.

(** X20: the payload of an event other than the scheduled one is used as
    it is.  For the scheduled event the repository of the payload is
    replaced by one built from the environment: with the owner [owner] and
    the repository [owner/name], the short name is [name] and the URL is
    the one of the repository on github.com; the rest of the payload is
    kept. *)
Theorem X20_schedule_repository (w : World) (eventData : EventData)
    (owner name : string) :
  (∀ eventType, eventType ≠ "schedule" →
     normalizeScheduleEvent w eventData eventType = eventData)
  ∧ (supplied (getenv w "GITHUB_REPOSITORY_OWNER") owner →
     getenv w "GITHUB_REPOSITORY" = Some (owner +:+ "/" +:+ name) →
     normalizeScheduleEvent w eventData "schedule"
     = {| repository :=
            {| html_url := "https://github.com/" +:+ owner +:+ "/" +:+ name;
               owner_login := owner;
               full_name := owner +:+ "/" +:+ name;
               repo_name := name |};
          commits := commits eventData;
          number := number eventData;
          pull_request := pull_request eventData |}).
Proof.
  split.
  - intros eventType Hne. unfold normalizeScheduleEvent.
    by destruct (String.eqb_spec eventType (SCHEDULE EVENT_TYPES)).
  - intros [Howner Hnonempty] Hrepo. unfold normalizeScheduleEvent.
    change (String.eqb "schedule" (SCHEDULE EVENT_TYPES)) with true.
    simpl negb. cbv iota zeta. rewrite Howner, Hrepo.
    assert (Js.or_else (Some owner) "" = owner) as ->.
    { simpl. by destruct (String.eqb_spec owner ""). }
    assert (Js.or_else (Some (owner +:+ "/" +:+ name)) ""
            = owner +:+ "/" +:+ name) as ->.
    { simpl. destruct (String.eqb_spec (owner +:+ "/" +:+ name) "")
        as [Hempty|]; [|done].
      destruct owner; [done | discriminate Hempty]. }
    assert (Js.replace_first (owner +:+ "/") "" (owner +:+ "/" +:+ name)
            = name) as ->; [|reflexivity].
    rewrite <- string_app_assoc. apply replace_first_prefix.
Qed.

Lemma X20_schedule_repository_witness :
  repository
    (normalizeScheduleEvent schedule_world empty_push_event "schedule")
  = sample_repository.
Proof.
  destruct (X20_schedule_repository schedule_world empty_push_event
              "acme" "app") as [_ H].
  rewrite H; [reflexivity | split; [reflexivity | discriminate]
                          | reflexivity].
Defined.

End RepositoryNames.

(** ** Upload, subscription and empty commit listings *)

Section OutsideFailures.
Import Scanner Action.

(** X21: a scan publishes the engine's exit code as the output
    [exit-code] and returns it; the report is uploaded only when uploads
    are enabled.  The upload is not protected: when it is rejected the scan
    throws the error of the upload, after the output has been set, instead
    of returning the exit code. *)
Theorem X21_scan_and_upload (w : World) (shouldUploadArtifact : bool)
    (scanInfo : ScanInfo) (eventType : string) (code : Z) :
  gitleaks w (env w) (buildScanCommand scanInfo eventType) = inr code →
  SetOutput "exit-code" (Js.number_to_string code)
    ∈ trace (Scan w shouldUploadArtifact scanInfo eventType)
  ∧ result (Scan w shouldUploadArtifact scanInfo eventType)
    = (if shouldUploadArtifact
       then match upload_artifact w with
            | inl msg => Throw msg
            | inr _ => Ret code
            end
       else Ret code)
  ∧ (shouldUploadArtifact = false →
     every not_upload (Scan w shouldUploadArtifact scanInfo eventType)).
Proof.
  intros Hengine. split; [|split].
  - unfold Scan, uploadScanArtifact, when, call. cbv zeta. rewrite Hengine.
    destruct shouldUploadArtifact; [destruct (upload_artifact w)|]; simpl;
      do 2 apply list_elem_of_further; apply list_elem_of_here.
  - by apply Scan_result.
  - intros ->. unfold Scan, when. every_effect; exact I.
Qed.

Lemma X21_scan_and_upload_witness :
  result (Scan failing_upload_world true
               {| Scanner.baseRef := Some "bbb2222";
                  headRef := Some "bbb2222";
                  Scanner.gitleaksPath := None |} "push")
  = Throw "Artifact storage quota has been hit"
  ∧ exit_status (main failing_upload_world) = 1%Z
  ∧ summaries (trace (main failing_upload_world)) = [].
Proof.
  split; [|by vm_compute].
  destruct (X21_scan_and_upload failing_upload_world true
              {| Scanner.baseRef := Some "bbb2222";
                 headRef := Some "bbb2222";
                 Scanner.gitleaksPath := None |} "push" 0) as (_ & H & _).
  - reflexivity.
  - exact H.
Defined.

(** X22: the subscription check lets every public repository through
    without asking the subscription service.  For any other repository it
    asks once and stops the run with status 1 exactly when the service
    answers that the subscription is missing; an unreachable service does
    not stop the run.  The check never throws. *)
Theorem X22_subscription_check (w : World) :
  (repo_private w = Some false →
   result (validateSubscription w) = Ret tt
   ∧ every log_only (validateSubscription w))
  ∧ (repo_private w ≠ Some false →
     result (validateSubscription w)
     = match subscription_api w with
       | SubscriptionForbidden => Exit 1
       | _ => Ret tt
       end
     ∧ ∃ url body, SubscriptionPost url body ∈ trace (validateSubscription w)).
Proof.
  unfold validateSubscription, every. cbv zeta. split.
  - intros Hpublic. rewrite !bool_decide_eq_true_2 by done. simpl.
    split; [reflexivity | by repeat constructor].
  - intros Hprivate. rewrite !bool_decide_eq_false_2 by done.
    destruct (subscription_api w); simpl; (split; [reflexivity|]);
      eexists _, _; do 3 apply list_elem_of_further; apply list_elem_of_here.
Qed.

Lemma X22_subscription_check_witness :
  result (validateSubscription unsubscribed_world) = Exit 1
  ∧ result (main unsubscribed_world) = Exit 1.
Proof.
  split; [|by vm_compute].
  destruct (X22_subscription_check unsubscribed_world) as [_ H].
  destruct H as [H _]; [discriminate | exact H].
Defined.

(** X23: a pull request whose commit listing comes back empty cannot be
    scanned through the listing.  With a base-ref override, or with a
    payload that carries no base and head, the scan throws while it reads
    the commits and the engine is never run; a payload with its own base
    and head (and no override) is not affected, since nothing is listed. *)
Theorem X23_empty_commit_listing (w : World) (shouldUploadArtifact : bool)
    (eventJSON : EventData) (eventType : string) :
  Js.truthy (getenv w "GITHUB_TOKEN") = true →
  pull_commits w = inr [] →
  Js.truthy (getenv w "BASE_REF") = true ∨ pull_request eventJSON = None →
  (∃ msg,
     result (ScanPullRequest w shouldUploadArtifact eventJSON eventType)
     = Throw msg)
  ∧ invocations
      (trace (ScanPullRequest w shouldUploadArtifact eventJSON eventType))
    = [].
Proof.
  intros Htoken Hlist Hpath.
  unfold ScanPullRequest, validateGitHubToken, pullRequestScanInfo,
    fetchPullRequestCommits, buildScanInfoFromCommits, call.
  rewrite Htoken, Hlist. simpl negb. cbv iota zeta.
  destruct (Js.truthy (getenv w "BASE_REF")) eqn:Hoverride.
  - simpl. split; [eauto | reflexivity].
  - destruct Hpath as [? | ->]; [done|]. simpl. split; [eauto | reflexivity].
Qed.

Lemma X23_empty_commit_listing_witness :
  (∃ msg,
     result (ScanPullRequest empty_listing_world true pull_request_event
                             "pull_request") = Throw msg)
  ∧ invocations
      (trace (ScanPullRequest empty_listing_world true pull_request_event
                              "pull_request")) = [].
Proof.
  apply (X23_empty_commit_listing empty_listing_world true pull_request_event
           "pull_request"); [reflexivity | reflexivity | left; reflexivity].
Defined.

Example empty_listing_ends_in_status_one :
  result (main empty_listing_world) = Exit 1
  ∧ invocations (trace (main empty_listing_world)) = [].
Proof. by vm_compute. Qed.

End OutsideFailures.
